(** * A2A: task protocol client, remote connection adapter, push-notification
      authentication and TTL cache

    A shallow embedding of the Python sources

      - [common/types.py]                       (data model, request union)
      - [common/client/client.py]               (A2AClient)
      - [hosts/multi_agent/remote_agent_connection.py]
      - [common/utils/push_notification_auth.py]
      - [common/utils/in_memory_cache.py]
      - [common/server/utils.py]

    Conventions.
      - A Python [dict] whose order can be observed (JSON bodies, metadata,
        keyword arguments) is an insertion-ordered association list; the
        cache's private dictionaries, which are only looked up, are [gmap]s.
      - A value of type [Any] is a [json] value (no floating point numbers).
      - Exceptions are values of [exn]; a computation that may raise returns
        a [Res].  Code that also draws UUIDs or calls the task callback runs
        in the state-and-exception monad [Py] over a [World].
      - [time.time()] is an explicit rational argument [now]. *)

From Stdlib Require Import ZArith QArith Qround Lia Lqa String Ascii List Bool.
From stdpp Require Import base option list strings gmap pretty.
Import ListNotations.
Open Scope string_scope.
Set Warnings "-register-all".

(** ** Python values *)

Inductive json : Type :=
| JNull
| JBool (b : bool)
| JInt (n : Z)
| JStr (s : string)
| JArr (xs : list json)
| JObj (kvs : list (string * json)).

(** [dict[str, Any]]: keys in insertion order. *)
Abbreviation dict := (list (string * json)).

Fixpoint dict_get (d : dict) (k : string) : option json :=
  match d with
  | [] => None
  | (k', v) :: r => if String.eqb k' k then Some v else dict_get r k
  end.

(** [d[k] = v]: an existing key keeps its position, a new key goes last. *)
Fixpoint dict_set (d : dict) (k : string) (v : json) : dict :=
  match d with
  | [] => [(k, v)]
  | (k', v') :: r =>
      if String.eqb k' k then (k', v) :: r else (k', v') :: dict_set r k v
  end.

(** [k in d] *)
Definition dict_mem (d : dict) (k : string) : bool :=
  match dict_get d k with Some _ => true | None => false end.

(** [d.update(s)]: the entries of [s] are assigned into [d], in order. *)
Definition dict_update (d s : dict) : dict :=
  fold_left (fun acc kv => dict_set acc (fst kv) (snd kv)) s d.

(** [dict] called on the keyword expansion of [s]: a fresh dictionary with
    the entries of [s]. *)
Definition dict_copy (s : dict) : dict := dict_update [] s.

(** Truthiness of a [dict | None] and of a [str | None]. *)
Definition truthy_dict (o : option dict) : bool :=
  match o with
  | Some (_ :: _) => true
  | _ => false
  end.

Definition truthy_str (o : option string) : bool :=
  match o with
  | Some (String _ _) => true
  | _ => false
  end.

(** ** Exceptions and results *)

Inductive exn : Type :=
| ValidationError (msg : string)          (* pydantic *)
| ValueError (msg : string)
| A2AClientHTTPError (status_code : Z) (message : string)
| A2AClientJSONError (message : string)
| UnboundLocalError (variable : string)
| AttributeError (attribute : string)
| KeyError (key : string)
| TypeError (msg : string)
| HTTPXError (msg : string)               (* an httpx exception, uncaught *)
| JWTError (msg : string).                (* a PyJWT exception, uncaught *)

Inductive Res (A : Type) : Type :=
| Ok (a : A)
| Raise (e : exn).
Arguments Ok {A} a.
Arguments Raise {A} e.

Definition res_bind {A B} (r : Res A) (k : A -> Res B) : Res B :=
  match r with
  | Ok a => k a
  | Raise e => Raise e
  end.


(** ** The data model of [common/types.py]

    One module per pydantic class; [t] is the class, the fields keep their
    names.  Construction from typed field values is [init]: it builds the
    record and then runs the class's [model_validator(mode='after')]
    functions, whose [ValueError] pydantic reports as a [ValidationError]. *)

Inductive TaskState : Type :=
| SUBMITTED | WORKING | INPUT_REQUIRED | COMPLETED | CANCELLED | FAILED | UNKNOWN.

Module FileContent.
Record t : Type := mk
  { name : option string;
    mimeType : option string;
    bytes : option string;
    uri : option string }.

(** [check_content], lines 33-40. [self.bytes or self.uri] and
    [self.bytes and self.uri] are tested for truth: [None] and the empty
    string both count as false. *)
Definition check_content (self : t) : Res t :=
  if negb (truthy_str (bytes self) || truthy_str (uri self)) then
    Raise (ValidationError "Either bytes or uri must be provided")
  else if truthy_str (bytes self) && truthy_str (uri self) then
    Raise (ValidationError "Only one of bytes or uri must be provided")
  else Ok self.

Definition init (name mimeType bytes uri : option string) : Res t :=
  check_content (mk name mimeType bytes uri).
End FileContent.

(** [Part]: the union of [TextPart], [FilePart] and [DataPart], told apart by
    their [type] literal. *)
Inductive Part : Type :=
| TextPart (text : string) (meta_data : option dict)
| FilePart (file : FileContent.t) (meta_data : option dict)
| DataPart (data : dict) (meta_data : option dict).

Inductive Role : Type := user | agent.

Module Message.
Record t : Type := mk
  { role : Role;
    parts : list Part;
    meta_data : option dict }.
End Message.

Module TaskStatus.
Record t : Type := mk
  { state : TaskState;
    message : option Message.t;
    timestamp : Q }.
End TaskStatus.

Module Artifact.
Record t : Type := mk
  { name : option string;
    description : option string;
    parts : list Part;
    meta_data : option dict;
    index : Z;
    append : option bool;
    lastChunk : option bool }.
End Artifact.

Module Task.
Record t : Type := mk
  { id : string;
    sessionId : option string;
    status : TaskStatus.t;
    artifacts : option (list Artifact.t);
    history : option (list Message.t);
    meta_data : option dict }.
End Task.

Module TaskStatusUpdateEvent.
Record t : Type := mk
  { id : string;
    status : TaskStatus.t;
    final : bool;
    meta_data : option dict }.
End TaskStatusUpdateEvent.

(** No [final] field in this class. *)
Module TaskArtifactUpdateEvent.
Record t : Type := mk
  { id : string;
    artifact : Artifact.t;
    meta_data : option dict }.
End TaskArtifactUpdateEvent.

Module AuthenticationInfo.
Record t : Type := mk
  { schemes : list string;
    credentials : option string;
    extra : dict }.
End AuthenticationInfo.

Module PushNotificationConfig.
Record t : Type := mk
  { url : string;
    token : option string;
    authentication : option AuthenticationInfo.t }.
End PushNotificationConfig.

Module TaskIdParams.
Record t : Type := mk
  { id : string;
    meta_data : option dict }.
End TaskIdParams.

Module TaskQueryParams.
Record t : Type := mk
  { id : string;
    meta_data : option dict;
    historyLength : option Z }.
End TaskQueryParams.

Module TaskSendParams.
Record t : Type := mk
  { id : string;
    sessionId : string;
    message : Message.t;
    acceptedOutputModels : option (list string);
    pushNotification : option PushNotificationConfig.t;
    historyLength : option Z;
    meta_data : option dict }.
End TaskSendParams.

Module TaskPushNotificationConfig.
Record t : Type := mk
  { id : string;
    pushNotificationConfig : PushNotificationConfig.t }.
End TaskPushNotificationConfig.

(** *** JSON-RPC envelope *)

(** [id: str | int | None] *)
Inductive rpc_id : Type :=
| IdStr (s : string)
| IdInt (n : Z)
| IdNone.

Module JSONRPCError.
Record t : Type := mk
  { code : Z;
    message : string;
    data : option json }.
End JSONRPCError.

(** The error classes: each fixes the default of [code] and [message]. *)
Definition JSONParseError : JSONRPCError.t :=
  JSONRPCError.mk (-32700) "Invalid JSON payload" None.
Definition InvalidRequestError : JSONRPCError.t :=
  JSONRPCError.mk (-32600) "Request payload validation error" None.
Definition MethodNotFoundError : JSONRPCError.t :=
  JSONRPCError.mk (-32601) "Method not found" None.
Definition InvalidParamsError : JSONRPCError.t :=
  JSONRPCError.mk (-32602) "Invalid method parameters" None.
Definition InternalError : JSONRPCError.t :=
  JSONRPCError.mk (-32603) "Internal error" None.
Definition TaskNotFoundError : JSONRPCError.t :=
  JSONRPCError.mk (-32001) "Task not found" None.
Definition TaskNotCancelableError : JSONRPCError.t :=
  JSONRPCError.mk (-32002) "Task cannot be cancelled" None.
Definition PushNotificationSupportedError : JSONRPCError.t :=
  JSONRPCError.mk (-32003) "Push notification is not supported" None.
Definition UnsupportedOperationalError (message : string) : JSONRPCError.t :=
  JSONRPCError.mk (-32004) message None.
Definition ContentTypeNotSupportedError (message : string) : JSONRPCError.t :=
  JSONRPCError.mk (-32005) message None.

(** [JSONRPCResponse] and its subclasses differ in the type of [result]
    only.  The class declares two optional fields and no validator. *)
Module JSONRPCResponse.
Record t (R : Type) : Type := mk
  { jsonrpc : string;
    id : rpc_id;
    result : option R;
    error : option JSONRPCError.t }.
Arguments mk {R} _ _ _ _.
Arguments jsonrpc {R} _.
Arguments id {R} _.
Arguments result {R} _.
Arguments error {R} _.

(** [JSONRPCResponse(id=..., result=..., error=...)]; [jsonrpc] takes its
    default.  There is no [model_validator] to run. *)
Definition init {R} (id : rpc_id) (result : option R)
    (error : option JSONRPCError.t) : Res (t R) :=
  Ok (mk "2.0" id result error).
End JSONRPCResponse.

(** [result: TaskStatusUpdateEvent | TaskArtifactUpdateEvent | None] *)
Inductive StreamEvent : Type :=
| StatusUpdate (e : TaskStatusUpdateEvent.t)
| ArtifactUpdate (e : TaskArtifactUpdateEvent.t).

Abbreviation SendTaskResponse := (JSONRPCResponse.t Task.t).
Abbreviation SendTaskStreamingResponse := (JSONRPCResponse.t StreamEvent).
Abbreviation GetTaskResponse := (JSONRPCResponse.t Task.t).
Abbreviation CancelTaskResponse := (JSONRPCResponse.t Task.t).
Abbreviation SetTaskPushNotificationResponse :=
  (JSONRPCResponse.t TaskPushNotificationConfig.t).
Abbreviation GetTaskPushNotificationResponse :=
  (JSONRPCResponse.t TaskPushNotificationConfig.t).

(** *** Agent card *)

Module AgentProvider.
Record t : Type := mk
  { organization : string;
    url : option string }.
End AgentProvider.

Module AgentCapabilities.
Record t : Type := mk
  { streaming : bool;
    pushNotification : bool;
    stateTransitionHistory : bool }.
End AgentCapabilities.

Module AgentSkill.
Record t : Type := mk
  { id : string;
    name : string;
    description : option string;
    tags : option (list string);
    examples : option (list string);
    inputModes : option (list string);
    outputModes : option (list string) }.
End AgentSkill.

Module AgentCard.
Record t : Type := mk
  { name : string;
    description : option string;
    url : string;
    provider : option AgentProvider.t;
    version : string;
    documentationUrl : option string;
    capabilities : option AgentCapabilities.t;
    defaultInputModes : list string;
    defaultOutputModes : list string;
    skills : list AgentSkill.t }.
End AgentCard.

(** ** The world: UUID generation, wall clock and the task callback

    [uuid.uuid4()] returns the next element of [entropy]; [str(u)] and
    [u.hex] are its two renderings.  The task callback is an arbitrary
    callable: it is modelled by the record of its calls, each with the
    positional arguments it was given. *)

Record UUID : Type := { uuid_str : string; uuid_hex : string }.

Inductive TaskCallbackArg : Type :=
| ArgTask (t : Task.t)
| ArgStatus (e : TaskStatusUpdateEvent.t)
| ArgArtifact (e : TaskArtifactUpdateEvent.t).

Record Call : Type :=
  { call_arg : option TaskCallbackArg;        (* first argument, or [None] *)
    call_card : option AgentCard.t }.         (* second argument, if passed *)

Record World : Type :=
  { entropy : nat -> UUID;
    drawn : nat;
    clock : Q;
    calls : list Call }.

Definition Py (A : Type) : Type := World -> Res A * World.

Definition ret {A} (a : A) : Py A := fun w => (Ok a, w).
Definition raise {A} (e : exn) : Py A := fun w => (Raise e, w).
Definition bind {A B} (c : Py A) (k : A -> Py B) : Py B :=
  fun w =>
    match c w with
    | (Ok a, w') => k a w'
    | (Raise e, w') => (Raise e, w')
    end.
Definition lift {A} (r : Res A) : Py A := fun w => (r, w).

Notation "'let*' x ':=' c 'in' k" := (bind c (fun x => k))
  (at level 10, x name, c at level 100, k at level 200).

Definition after_draw (w : World) : World :=
  {| entropy := entropy w; drawn := S (drawn w);
     clock := clock w; calls := calls w |}.

Definition after_call (c : Call) (w : World) : World :=
  {| entropy := entropy w; drawn := drawn w;
     clock := clock w; calls := calls w ++ [c] |}.

Definition uuid4 : Py UUID :=
  fun w => (Ok (entropy w (drawn w)), after_draw w).

Definition datetime_now : Py Q := fun w => (Ok (clock w), w).

Definition invoke_callback (c : Call) : Py unit :=
  fun w => (Ok tt, after_call c w).

(** ** JSON-RPC requests and the method-discriminated union *)

Inductive Method : Type :=
| tasks_send
| tasks_sendSubscribe
| tasks_get
| tasks_cancel
| tasks_setPushNotification_set
| tasks_pushNotification_get
| tasks_reSubscribe.

(** The [Literal] that each request class gives to [method]. *)
Definition method_literal (m : Method) : string :=
  match m with
  | tasks_send => "tasks/send"
  | tasks_sendSubscribe => "tasks/sendSubscribe"
  | tasks_get => "tasks/get"
  | tasks_cancel => "tasks/cancel"
  | tasks_setPushNotification_set => "tasks/setPushNotification/set"
  | tasks_pushNotification_get => "tasks/pushNotification/get"
  | tasks_reSubscribe => "tasks/reSubscribe"
  end.

(** The annotation of [params] in each request class. *)
Definition params_type (m : Method) : Type :=
  match m with
  | tasks_send | tasks_sendSubscribe => TaskSendParams.t
  | tasks_get => TaskQueryParams.t
  | tasks_cancel | tasks_pushNotification_get | tasks_reSubscribe =>
      TaskIdParams.t
  | tasks_setPushNotification_set => TaskPushNotificationConfig.t
  end.

(** pydantic's validation of a raw value against a field annotation is not
    part of the repository; the validators the embedding needs are taken as
    an interface. [None] is a validation failure. *)
Class Pydantic : Type :=
  { validate_rpc_id : json -> option rpc_id;
    validate_params : forall m : Method, json -> option (params_type m);
    validate_task_response : dict -> option SendTaskResponse;
    validate_streaming_response : dict -> option SendTaskStreamingResponse;
    validate_push_response : dict -> option SetTaskPushNotificationResponse }.

Module JSONRPCRequest.
(** A request of the class whose [method] literal is [m]. *)
Record t (m : Method) : Type := mk
  { jsonrpc : string;
    id : rpc_id;
    params : params_type m }.
Arguments mk {m} _ _ _.
Arguments jsonrpc {m} _.
Arguments id {m} _.
Arguments params {m} _.

Definition literal_ok (lit : string) (o : option json) : bool :=
  match o with
  | None => true                       (* the field takes its default *)
  | Some (JStr s) => String.eqb s lit
  | Some _ => false
  end.

(** Construction of the request class of [m] from keyword arguments.
    Keys that are not fields are ignored; [jsonrpc] and [method] default
    to their literals and must equal them when given; [id] defaults to
    [uuid4().hex]; [params] has no default and is required. *)
Definition init `{Pydantic} (m : Method) (kwargs : dict) : Py (t m) :=
  let* id_field :=
    match dict_get kwargs "id" with
    | None => let* u := uuid4 in ret (Some (IdStr (uuid_hex u)))
    | Some j => ret (validate_rpc_id j)
    end in
  let params_field :=
    match dict_get kwargs "params" with
    | None => None                     (* missing: "Field required" *)
    | Some j => validate_params m j
    end in
  if literal_ok "2.0" (dict_get kwargs "jsonrpc")
     && literal_ok (method_literal m) (dict_get kwargs "method") then
    match id_field, params_field with
    | Some i, Some p => ret (mk "2.0" i p)
    | _, _ => raise (ValidationError (method_literal m))
    end
  else raise (ValidationError (method_literal m)).
End JSONRPCRequest.

Abbreviation SendTaskRequest := (JSONRPCRequest.t tasks_send).
Abbreviation SendTaskStreamingRequest := (JSONRPCRequest.t tasks_sendSubscribe).
Abbreviation GetTaskRequest := (JSONRPCRequest.t tasks_get).
Abbreviation CancelTaskRequest := (JSONRPCRequest.t tasks_cancel).
Abbreviation SetTaskPushNotificationRequest :=
  (JSONRPCRequest.t tasks_setPushNotification_set).
Abbreviation GetTaskPushNotificationRequest :=
  (JSONRPCRequest.t tasks_pushNotification_get).
Abbreviation TaskResubscribeRequest := (JSONRPCRequest.t tasks_reSubscribe).

Module A2ARequest.
(** A value of the union: a request of one of the seven classes. *)
Inductive t : Type :=
| Tagged (m : Method) (r : JSONRPCRequest.t m).

(** The members of the [Union], in the order they are listed. *)
Definition members : list Method :=
  [ tasks_send; tasks_get; tasks_cancel; tasks_setPushNotification_set;
    tasks_pushNotification_get; tasks_reSubscribe; tasks_sendSubscribe ].

(** [Field(discriminator='method')]: the member whose literal is [tag]. *)
Definition discriminate (tag : string) : option Method :=
  List.find (fun m => String.eqb (method_literal m) tag) members.

(** [A2ARequest.validate_python(payload)] *)
Definition validate_python `{Pydantic} (payload : json) : Py t :=
  match payload with
  | JObj kwargs =>
      match dict_get kwargs "method" with
      | None => raise (ValidationError "union_tag_not_found")
      | Some (JStr tag) =>
          match discriminate tag with
          | None => raise (ValidationError "union_tag_invalid")
          | Some m =>
              let* r := JSONRPCRequest.init m kwargs in ret (Tagged m r)
          end
      | Some _ => raise (ValidationError "union_tag_invalid")
      end
  | _ => raise (ValidationError "model_attributes_type")
  end.
End A2ARequest.

(** ** [model_dump]

    The dictionary pydantic produces for a model: one entry per declared
    field, in declaration order, [None] as [JNull], nested models as
    dictionaries. *)

Definition dump_opt {A} (f : A -> json) (o : option A) : json :=
  match o with
  | Some a => f a
  | None => JNull
  end.

Definition dump_strs (l : list string) : json := JArr (map JStr l).

Definition FileContent_model_dump (f : FileContent.t) : dict :=
  [ ("name", dump_opt JStr (FileContent.name f));
    ("mimeType", dump_opt JStr (FileContent.mimeType f));
    ("bytes", dump_opt JStr (FileContent.bytes f));
    ("uri", dump_opt JStr (FileContent.uri f)) ].

Definition Part_model_dump (p : Part) : dict :=
  match p with
  | TextPart text md =>
      [ ("type", JStr "text"); ("text", JStr text);
        ("meta_data", dump_opt JObj md) ]
  | FilePart file md =>
      [ ("type", JStr "file"); ("file", JObj (FileContent_model_dump file));
        ("meta_data", dump_opt JObj md) ]
  | DataPart data md =>
      [ ("type", JStr "data"); ("data", JObj data);
        ("meta_data", dump_opt JObj md) ]
  end.

Definition Role_dump (r : Role) : json :=
  match r with
  | user => JStr "user"
  | agent => JStr "agent"
  end.

Definition Message_model_dump (m : Message.t) : dict :=
  [ ("role", Role_dump (Message.role m));
    ("parts", JArr (map (fun p => JObj (Part_model_dump p)) (Message.parts m)));
    ("meta_data", dump_opt JObj (Message.meta_data m)) ].

Definition AuthenticationInfo_model_dump (a : AuthenticationInfo.t) : dict :=
  [ ("schemes", dump_strs (AuthenticationInfo.schemes a));
    ("credentials", dump_opt JStr (AuthenticationInfo.credentials a)) ]
  ++ AuthenticationInfo.extra a.

Definition PushNotificationConfig_model_dump
    (c : PushNotificationConfig.t) : dict :=
  [ ("url", JStr (PushNotificationConfig.url c));
    ("token", dump_opt JStr (PushNotificationConfig.token c));
    ("authentication",
      dump_opt (fun a => JObj (AuthenticationInfo_model_dump a))
               (PushNotificationConfig.authentication c)) ].

Definition TaskSendParams_model_dump (r : TaskSendParams.t) : dict :=
  [ ("id", JStr (TaskSendParams.id r));
    ("sessionId", JStr (TaskSendParams.sessionId r));
    ("message", JObj (Message_model_dump (TaskSendParams.message r)));
    ("acceptedOutputModels",
      dump_opt dump_strs (TaskSendParams.acceptedOutputModels r));
    ("pushNotification",
      dump_opt (fun c => JObj (PushNotificationConfig_model_dump c))
               (TaskSendParams.pushNotification r));
    ("historyLength", dump_opt JInt (TaskSendParams.historyLength r));
    ("meta_data", dump_opt JObj (TaskSendParams.meta_data r)) ].

(** ** [common/client/client.py]

    The network is an input.  For a unary call it is the outcome of the one
    [client.post]; for a streaming call, the outcome of [connect_sse] and the
    events [iter_sse] then produces. *)

Record HttpResponse : Type :=
  { status_code : Z;
    json_body : option json }.        (* [None]: the body is not JSON *)

Inductive post_outcome : Type :=
| PostRaises (msg : string)           (* a transport failure: httpx.HTTPError *)
| PostReturns (r : HttpResponse).

Inductive sse : Type :=
| SseData (data : option json)        (* [None]: the data is not JSON *)
| SseBroken (msg : string).           (* [iter_sse] raises httpx.HTTPError *)

Inductive sse_connection : Type :=
| ConnectRaises (msg : string)
| EventSource (events : list sse).

(** What advancing a generator gives: a value, or an exception that ends it. *)
Inductive item (A : Type) : Type :=
| Yield (a : A)
| Throw (e : exn).
Arguments Yield {A} a.
Arguments Throw {A} e.

(** Keyword expansion of a value: it has to be a mapping. *)
Definition splat (j : json) : Res dict :=
  match j with
  | JObj d => Ok d
  | _ => Raise (TypeError "argument after ** must be a mapping")
  end.

Module A2AClient.
Record t : Type := mk { url : string }.

Definition init (agent_card : option AgentCard.t) (url : option string)
    : Res t :=
  match agent_card, url with
  | Some c, _ => Ok (mk (AgentCard.url c))
  | None, Some (String a s) => Ok (mk (String a s))
  | None, _ => Raise (ValueError "Either agent_card or url must be provided")
  end.

(** The exceptions the [try] block of [_send_request] can end with. *)
Inductive raised : Type :=
| JSONDecodeError (msg : string)
| HTTPError (msg : string).

(** [response.raise_for_status()] passes for the codes 200 to 299. *)
Definition is_success (r : HttpResponse) : bool :=
  (200 <=? status_code r)%Z && (status_code r <=? 299)%Z.

(** [_send_request], lines 34-43.  The local variable [response] is bound
    by the assignment in the [try] block only: when [client.post] raises,
    it is still unbound in the handler that reads [response.status_code]. *)
Definition _send_request {m} (self : t) (request : JSONRPCRequest.t m)
    (net : post_outcome) : Res json :=
  let unbound : option HttpResponse := None in
  let '(response, attempt) :=
    match net with
    | PostRaises msg => (unbound, inr (HTTPError msg))
    | PostReturns r =>
        (Some r,
         if is_success r then
           match json_body r with
           | Some j => inl j
           | None => inr (JSONDecodeError "Expecting value")
           end
         else inr (HTTPError "status"))
    end in
  match attempt with
  | inl j => Ok j
  | inr (JSONDecodeError msg) => Raise (A2AClientJSONError msg)
  | inr (HTTPError msg) =>
      match response with
      | Some r => Raise (A2AClientHTTPError (status_code r) msg)
      | None => Raise (UnboundLocalError "response")
      end
  end.

(** The shape the five unary operations share: build the request from the
    keyword expansion of [payload], send it, build the response from the
    keyword expansion of the answer. *)
Definition unary `{Pydantic} {R} (m : Method)
    (validate_response : dict -> option R) (self : t) (payload : dict)
    (net : post_outcome) : Py R :=
  let* request := JSONRPCRequest.init m payload in
  let* answer := lift (_send_request self request net) in
  let* kwargs := lift (splat answer) in
  match validate_response kwargs with
  | Some r => ret r
  | None => raise (ValidationError "response")
  end.

Definition send_task `{Pydantic} : t -> dict -> post_outcome ->
    Py SendTaskResponse :=
  unary tasks_send validate_task_response.

Definition get_task `{Pydantic} : t -> dict -> post_outcome ->
    Py GetTaskResponse :=
  unary tasks_get validate_task_response.

Definition cancel_task `{Pydantic} : t -> dict -> post_outcome ->
    Py CancelTaskResponse :=
  unary tasks_cancel validate_task_response.

Definition set_task_callback `{Pydantic} : t -> dict -> post_outcome ->
    Py SetTaskPushNotificationResponse :=
  unary tasks_setPushNotification_set validate_push_response.

Definition get_task_callback `{Pydantic} : t -> dict -> post_outcome ->
    Py GetTaskPushNotificationResponse :=
  unary tasks_pushNotification_get validate_push_response.

(** One step of the loop of [send_task_streaming], lines 27-32. *)
Definition decode_sse `{Pydantic} (e : sse)
    : item SendTaskStreamingResponse :=
  match e with
  | SseBroken msg => Throw (A2AClientHTTPError 400 msg)
  | SseData None => Throw (A2AClientJSONError "Expecting value")
  | SseData (Some j) =>
      match splat j with
      | Raise e => Throw e
      | Ok kwargs =>
          match validate_streaming_response kwargs with
          | Some r => Yield r
          | None => Throw (ValidationError "SendTaskStreamingResponse")
          end
      end
  end.

Fixpoint iter_sse `{Pydantic} (events : list sse)
    : list (item SendTaskStreamingResponse) :=
  match events with
  | [] => []
  | e :: rest =>
      match decode_sse e with
      | Yield r => Yield r :: iter_sse rest
      | Throw x => [Throw x]
      end
  end.

(** [send_task_streaming], lines 22-32: the items the generator gives when
    it is advanced to its end.  The request is built when the generator is
    first advanced, before the connection is opened; [connect_sse] is
    outside the [try] block. *)
Definition send_task_streaming `{Pydantic} (self : t) (payload : dict)
    (net : sse_connection) : Py (list (item SendTaskStreamingResponse)) :=
  let* request := JSONRPCRequest.init tasks_sendSubscribe payload in
  match net with
  | ConnectRaises msg => raise (HTTPXError msg)
  | EventSource events => ret (iter_sse events)
  end.
End A2AClient.

(** ** [hosts/multi_agent/remote_agent_connection.py] *)

(** Objects with a [meta_data] attribute.  [None] has none: an argument that
    may be [None] is an [option]. *)
Class HasMetaData (A : Type) : Type :=
  { get_meta_data : A -> option dict;
    set_meta_data : A -> option dict -> A }.

#[export] Instance Message_meta : HasMetaData Message.t :=
  { get_meta_data := Message.meta_data;
    set_meta_data m md := Message.mk (Message.role m) (Message.parts m) md }.

#[export] Instance TaskSendParams_meta : HasMetaData TaskSendParams.t :=
  { get_meta_data := TaskSendParams.meta_data;
    set_meta_data r md :=
      TaskSendParams.mk (TaskSendParams.id r) (TaskSendParams.sessionId r)
        (TaskSendParams.message r) (TaskSendParams.acceptedOutputModels r)
        (TaskSendParams.pushNotification r) (TaskSendParams.historyLength r)
        md }.

#[export] Instance Task_meta : HasMetaData Task.t :=
  { get_meta_data := Task.meta_data;
    set_meta_data t md :=
      Task.mk (Task.id t) (Task.sessionId t) (Task.status t)
        (Task.artifacts t) (Task.history t) md }.

#[export] Instance TaskStatusUpdateEvent_meta
    : HasMetaData TaskStatusUpdateEvent.t :=
  { get_meta_data := TaskStatusUpdateEvent.meta_data;
    set_meta_data e md :=
      TaskStatusUpdateEvent.mk (TaskStatusUpdateEvent.id e)
        (TaskStatusUpdateEvent.status e) (TaskStatusUpdateEvent.final e) md }.

#[export] Instance TaskArtifactUpdateEvent_meta
    : HasMetaData TaskArtifactUpdateEvent.t :=
  { get_meta_data := TaskArtifactUpdateEvent.meta_data;
    set_meta_data e md :=
      TaskArtifactUpdateEvent.mk (TaskArtifactUpdateEvent.id e)
        (TaskArtifactUpdateEvent.artifact e) md }.

#[export] Instance StreamEvent_meta : HasMetaData StreamEvent :=
  { get_meta_data ev :=
      match ev with
      | StatusUpdate e => get_meta_data e
      | ArtifactUpdate e => get_meta_data e
      end;
    set_meta_data ev md :=
      match ev with
      | StatusUpdate e => StatusUpdate (set_meta_data e md)
      | ArtifactUpdate e => ArtifactUpdate (set_meta_data e md)
      end }.

(** [merge_metadata], lines 86-92. *)
Definition merge_metadata {T S} `{HasMetaData T} `{HasMetaData S}
    (target : option T) (source : option S) : option T :=
  match target, source with
  | Some t, Some s =>
      let tm := get_meta_data t in
      let sm := get_meta_data s in
      if truthy_dict tm && truthy_dict sm then
        (* target.meta_data.update(source.meta_data) *)
        Some (set_meta_data t (Some (dict_update (default [] tm) (default [] sm))))
      else if truthy_dict sm then
        (* target.meta_data = a new dict with the entries of the source *)
        Some (set_meta_data t (Some (dict_copy (default [] sm))))
      else Some t
  | _, _ => target                  (* an attribute is missing: return *)
  end.

Definition set_status_message (st : TaskStatus.t) (m : Message.t)
    : TaskStatus.t :=
  TaskStatus.mk (TaskStatus.state st) (Some m) (TaskStatus.timestamp st).

(** Lines 55-59 (and 75-79): the message id chain on a status message. *)
Definition assign_message_id (m : Message.t) : Py Message.t :=
  let md0 :=
    if truthy_dict (Message.meta_data m) then default [] (Message.meta_data m)
    else [] in                       (* if not m.meta_data: m.meta_data = {} *)
  let md1 :=
    match dict_get md0 "message_id" with
    | Some v => dict_set md0 "last_message_id" v
    | None => md0
    end in
  let* u := uuid4 in
  ret (set_meta_data m (Some (dict_set md1 "message_id" (JStr (uuid_str u))))).

(** Lines 49-59 (and 70-79) for a result that has a [status]. *)
Definition update_status (request : TaskSendParams.t) (st : TaskStatus.t)
    : Py TaskStatus.t :=
  match TaskStatus.message st with
  | Some m =>
      match merge_metadata (Some m) (Some (TaskSendParams.message request)) with
      | Some m' =>
          let* m'' := assign_message_id m' in
          ret (set_status_message st m'')
      | None => ret st
      end
  | None => ret st
  end.

Module RemoteAgentConnections.
Record t : Type := mk
  { agent_client : A2AClient.t;
    card : AgentCard.t;
    conversation_name : option string;
    conversation : option json;
    pending_tasks : gset string }.

Definition init (agent_card : AgentCard.t) : Res t :=
  res_bind (A2AClient.init (Some agent_card) None)
           (fun c => Ok (mk c agent_card None None ∅)).

Definition get_agent (self : t) : AgentCard.t := card self.

(** The network of one call: the unary POST or the event stream. *)
Record network : Type :=
  { post : post_outcome;
    stream : sse_connection }.

(** Lines 48-59: what the loop does to [response.result]. *)
Definition prepare (request : TaskSendParams.t) (result : option StreamEvent)
    : Py (option StreamEvent) :=
  match merge_metadata result (Some request) with
  | Some (StatusUpdate e) =>
      let* st := update_status request (TaskStatusUpdateEvent.status e) in
      ret (Some (StatusUpdate
             (TaskStatusUpdateEvent.mk (TaskStatusUpdateEvent.id e) st
                (TaskStatusUpdateEvent.final e)
                (TaskStatusUpdateEvent.meta_data e))))
  | other => ret other
  end.

Definition callback_arg (result : option StreamEvent)
    : option TaskCallbackArg :=
  match result with
  | Some (StatusUpdate e) => Some (ArgStatus e)
  | Some (ArtifactUpdate e) => Some (ArgArtifact e)
  | None => None
  end.

(** [hasattr(response.result, "final") and response.result.final] *)
Definition is_final (result : option StreamEvent) : bool :=
  match result with
  | Some (StatusUpdate e) => TaskStatusUpdateEvent.final e
  | _ => false
  end.

(** The [async for] loop of lines 47-64 over the items of the generator.
    [task_callback] tells whether a callback was given. *)
Fixpoint consume (self : t) (request : TaskSendParams.t)
    (task_callback : bool) (items : list (item SendTaskStreamingResponse))
    : Py unit :=
  match items with
  | [] => ret tt
  | Throw e :: _ => raise e
  | Yield response :: rest =>
      let* result := prepare request (JSONRPCResponse.result response) in
      let* _ :=
        if task_callback then
          invoke_callback {| call_arg := callback_arg result;
                             call_card := Some (card self) |}
        else ret tt in
      if is_final result then ret tt               (* break *)
      else consume self request task_callback rest
  end.

Definition submitted (request : TaskSendParams.t) (now : Q) : Task.t :=
  Task.mk (TaskSendParams.id request)
    (Some (TaskSendParams.sessionId request))
    (TaskStatus.mk SUBMITTED (Some (TaskSendParams.message request)) now)
    None (Some [TaskSendParams.message request]) None.

(** [send_task], lines 31-83. *)
Definition send_task `{Pydantic} (self : t) (request : TaskSendParams.t)
    (task_callback : bool) (net : network) : Py (option Task.t) :=
  match AgentCard.capabilities (card self) with
  | None => raise (AttributeError "streaming")
  | Some capabilities =>
      if AgentCapabilities.streaming capabilities then
        let* _ :=
          if task_callback then
            let* now := datetime_now in
            invoke_callback {| call_arg := Some (ArgTask (submitted request now));
                               call_card := Some (card self) |}
          else ret tt in
        let* items :=
          A2AClient.send_task_streaming (agent_client self)
            (TaskSendParams_model_dump request) (stream net) in
        let* _ := consume self request task_callback items in
        ret None
      else
        let* response :=
          A2AClient.send_task (agent_client self)
            (TaskSendParams_model_dump request) (post net) in
        let* result :=
          match merge_metadata (JSONRPCResponse.result response)
                  (Some request) with
          | Some task =>
              let* st := update_status request (Task.status task) in
              ret (Some (Task.mk (Task.id task) (Task.sessionId task) st
                           (Task.artifacts task) (Task.history task)
                           (Task.meta_data task)))
          | None => ret None
          end in
        let* _ :=
          if task_callback then
            invoke_callback {| call_arg := option_map ArgTask result;
                               call_card := None |}
          else ret tt in
        ret result
  end.
End RemoteAgentConnections.

(** ** [common/utils/in_memory_cache.py]

    The two private dictionaries of the cache.  [now] is [time.time()]. *)

Module InMemoryCache.
Record t : Type := mk
  { _cache_data : gmap string json;
    _ttl : gmap string Q }.

(** The state [__init__] sets up. *)
Definition init : t := mk ∅ ∅.

(** [set], lines 28-35. *)
Definition set (self : t) (key : string) (value : json) (ttl : option Z)
    (now : Q) : t :=
  let data := <[key := value]> (_cache_data self) in
  match ttl with
  | Some n => mk data (<[key := (now + inject_Z n)%Q]> (_ttl self))
  | None => mk data (delete key (_ttl self))
  end.

(** [time.time() > self._ttl[key]] *)
Definition expired (now deadline : Q) : bool := negb (Qle_bool now deadline).

(** [self._cache_data.get(key, default)] *)
Definition stored_or (default : json) (o : option json) : json :=
  match o with
  | Some v => v
  | None => default
  end.

(** [get], lines 37-45.  [del] of a key that is absent raises. *)
Definition get (self : t) (key : string) (default : json) (now : Q)
    : Res json * t :=
  match _ttl self !! key with
  | Some deadline =>
      if expired now deadline then
        match _cache_data self !! key with
        | Some _ =>
            (Ok default,
             mk (delete key (_cache_data self)) (delete key (_ttl self)))
        | None => (Raise (KeyError key), self)
        end
      else (Ok (stored_or default (_cache_data self !! key)), self)
  | None => (Ok (stored_or default (_cache_data self !! key)), self)
  end.

(** [delete], lines 47-54. *)
Definition delete (self : t) (key : string) : bool * t :=
  match _cache_data self !! key with
  | Some _ =>
      (true, mk (base.delete key (_cache_data self))
                (base.delete key (_ttl self)))
  | None => (false, self)
  end.

(** [clear], lines 56-60. *)
Definition clear (self : t) : bool * t := (true, mk ∅ ∅).

End InMemoryCache.


(** ** [common/server/utils.py] *)

(** [modes is None or len(modes) == 0] *)
Definition none_or_empty (modes : option (list string)) : bool :=
  match modes with
  | None => true
  | Some l => Nat.eqb (length l) 0
  end.

(** [x in modes] *)
Definition str_in (x : string) (modes : list string) : bool :=
  existsb (String.eqb x) modes.

(** [are_modalities_compatible], lines 7-15. *)
Definition are_modalities_compatible
    (server_output_modes client_output_modes : option (list string)) : bool :=
  if none_or_empty client_output_modes then true
  else if none_or_empty server_output_modes then true
  else existsb (fun x => str_in x (default [] server_output_modes))
               (default [] client_output_modes).

Definition new_incompatible_types_error (request_id : rpc_id)
    : Res (JSONRPCResponse.t json) :=
  JSONRPCResponse.init request_id None
    (Some (ContentTypeNotSupportedError "Content type not supported")).

Definition new_not_implemented_error (request_id : rpc_id)
    : Res (JSONRPCResponse.t json) :=
  JSONRPCResponse.init request_id None
    (Some (UnsupportedOperationalError "Operation not supported")).

(** ** [json.dumps] as [_calculate_request_body_sha256] calls it

    [ensure_ascii=False], [separators=(",", ":")], no indentation, keys in
    insertion order.  A [str] is the sequence of bytes of its UTF-8 encoding,
    so that [body_str.encode()] is the identity. *)

Definition chr (n : nat) : string := String (ascii_of_nat n) EmptyString.

Definition hex_digit (n : nat) : string :=
  match n with
  | 10 => "a" | 11 => "b" | 12 => "c" | 13 => "d" | 14 => "e" | 15 => "f"
  | _ => pretty n
  end.

(** The escapes of the encoder: the quote, the backslash and the control
    characters; every other byte stands for itself. *)
Definition escape_char (a : ascii) : string :=
  let n := nat_of_ascii a in
  if Nat.eqb n 34 then chr 92 ++ chr 34
  else if Nat.eqb n 92 then chr 92 ++ chr 92
  else if Nat.eqb n 8 then chr 92 ++ "b"
  else if Nat.eqb n 12 then chr 92 ++ "f"
  else if Nat.eqb n 10 then chr 92 ++ "n"
  else if Nat.eqb n 13 then chr 92 ++ "r"
  else if Nat.eqb n 9 then chr 92 ++ "t"
  else if Nat.ltb n 32 then
    chr 92 ++ "u00" ++ hex_digit (n / 16) ++ hex_digit (n mod 16)
  else String a EmptyString.

Fixpoint escape (s : string) : string :=
  match s with
  | EmptyString => EmptyString
  | String a r => escape_char a ++ escape r
  end.

Definition quoted (s : string) : string := chr 34 ++ escape s ++ chr 34.

Fixpoint json_dumps (j : json) : string :=
  match j with
  | JNull => "null"
  | JBool true => "true"
  | JBool false => "false"
  | JInt n => pretty n
  | JStr s => quoted s
  | JArr xs => "[" ++ String.concat "," (map json_dumps xs) ++ "]"
  | JObj kvs =>
      "{" ++ String.concat ","
               (map (fun kv => let '(k, v) := kv in
                               quoted k ++ ":" ++ json_dumps v) kvs)
          ++ "}"
  end.

(** ** [common/utils/push_notification_auth.py]

    PyJWT, its JWKS client and hashlib are libraries, taken as an interface.
    [jwt_decode token key algorithms require now] is [jwt.decode] called at
    time [now] with [options={"require": require}]; a PyJWT exception is a
    [Raise]. *)

Class JWTLibrary : Type :=
  { PyJWK : Type;
    key_id : PyJWK -> string;
    signing_key : Type;
    PyJWKClient : Type;
    sha256_hexdigest : string -> string;
    jwt_encode : dict -> PyJWK -> dict -> string -> string;
    get_signing_key_from_jwt : PyJWKClient -> string -> Res signing_key;
    jwt_decode :
      string -> signing_key -> list string -> list string -> Q -> Res dict }.

Definition AUTH_HEADER_PREFIX : string := "Bearer ".

(** The request as the receiver's web framework presents it: the
    [Authorization] header, and the body parsed by [request.json()]
    ([None] when the body is not JSON). *)
Record Request : Type :=
  { authorization : option string;
    body : option json }.

(** [int(x)]: truncation towards zero. *)
Definition int_of (x : Q) : Z := Z.quot (Qnum x) (Zpos (Qden x)).

Module PushNotificationAuth.
(** [_calculate_request_body_sha256], lines 21-29. *)
Definition _calculate_request_body_sha256 `{JWTLibrary} (data : json)
    : string :=
  let body_str := json_dumps data in
  sha256_hexdigest body_str.
End PushNotificationAuth.

Module PushNotificationSenderAuth.
Record t `{JWTLibrary} : Type := mk
  { public_keys : list dict;
    private_key_jwk : option PyJWK }.

Definition init `{JWTLibrary} : t := mk _ [] None.

(** [_generate_jwt], lines 59-65; [now] is [time.time()]. *)
Definition _generate_jwt `{JWTLibrary} (self : t) (data : dict) (now : Q)
    : Res string :=
  let iat := int_of now in
  let payload :=
    [ ("iat", JInt iat);
      ("request_body_sha256",
        JStr (PushNotificationAuth._calculate_request_body_sha256 (JObj data))) ]
  in
  match private_key_jwk self with
  | None => Raise (AttributeError "key_id")
  | Some key => Ok (jwt_encode payload key [("kid", JStr (key_id key))] "RS256")
  end.

(** [send_push_notification], lines 67-76: the POST it makes.  The outcome
    of the POST is logged and otherwise ignored; the body is the JSON
    value the receiver will parse. *)
Definition send_push_notification `{JWTLibrary} (self : t) (url : string)
    (data : dict) (now : Q) : Res Request :=
  res_bind (_generate_jwt self data now) (fun jwt_token =>
  Ok {| authorization := Some (AUTH_HEADER_PREFIX ++ jwt_token);
        body := Some (JObj data) |}).
End PushNotificationSenderAuth.

Module PushNotificationReceiverAuth.
(** [jwks_client] is the empty list until [load_jwks] sets it. *)
Record t `{JWTLibrary} : Type := mk
  { public_keys_jwks : list dict;
    jwks_client : option PyJWKClient }.

Definition init `{JWTLibrary} : t := mk _ [] None.

Definition load_jwks `{JWTLibrary} (self : t) (client : PyJWKClient) : t :=
  mk _ (public_keys_jwks self) (Some client).

(** [auth_header[len(AUTH_HEADER_PREFIX):]] *)
Definition after_prefix (auth_header : string) : string :=
  String.substring (String.length AUTH_HEADER_PREFIX)
    (String.length auth_header - String.length AUTH_HEADER_PREFIX) auth_header.

(** [actual != claim], for a digest and a decoded claim. *)
Definition differs (actual : string) (claim : json) : bool :=
  match claim with
  | JStr s => negb (String.eqb actual s)
  | _ => true
  end.

(** [time.time() - iat > 60 * 5] *)
Definition too_old (now : Q) (iat : Z) : bool :=
  negb (Qle_bool (now - inject_Z iat) (inject_Z (60 * 5))).

(** [verify_push_notification], lines 87-106; [now] is [time.time()]. *)
Definition verify_push_notification `{JWTLibrary} (self : t)
    (request : Request) (now : Q) : Res bool :=
  match authorization request with
  | None => Ok false
  | Some auth_header =>
      if negb (negb (String.eqb auth_header "")
               && String.prefix AUTH_HEADER_PREFIX auth_header) then Ok false
      else
        let token := after_prefix auth_header in
        match jwks_client self with
        | None => Raise (AttributeError "get_signing_key_from_jwt")
        | Some client =>
            res_bind (get_signing_key_from_jwt client token) (fun key =>
            res_bind (jwt_decode token key ["RS256"]
                        ["iat"; "request_body_sha256"] now) (fun decode_token =>
            match body request with
            | None => Raise (ValueError "JSONDecodeError")
            | Some data =>
                let actual_body_sha256 :=
                  PushNotificationAuth._calculate_request_body_sha256 data in
                match dict_get decode_token "request_body_sha256" with
                | None => Raise (KeyError "request_body_sha256")
                | Some claim =>
                    if differs actual_body_sha256 claim then
                      Raise (ValueError "Invalid request body")
                    else
                      match dict_get decode_token "iat" with
                      | None => Raise (KeyError "iat")
                      | Some (JInt iat) =>
                          if too_old now iat then
                            Raise (ValueError "Token expired")
                          else Ok true
                      | Some (JBool b) =>
                          if too_old now (if b then 1 else 0) then
                            Raise (ValueError "Token expired")
                          else Ok true
                      | Some _ => Raise (TypeError "unsupported operand")
                      end
                end
            end))
        end
  end.
End PushNotificationReceiverAuth.

(** ** Observations used in the statements *)

(** The value a key has in the metadata of an object ([None] when the
    metadata is [None] or lacks the key). *)
Definition meta_lookup {A} `{HasMetaData A} (a : A) (k : string)
    : option json :=
  dict_get (default [] (get_meta_data a)) k.

(** Classes whose [meta_data] attribute reads back what was assigned. *)
Class LawfulMetaData (A : Type) `{HasMetaData A} : Prop :=
  get_set_meta_data :
    forall (a : A) (md : option dict), get_meta_data (set_meta_data a md) = md.

(** Distinct keys: what every Python dictionary satisfies. *)
Definition distinct_keys (d : dict) : Prop := NoDup (map fst d).

(** The status message a callback call was given, if any. *)
Definition delivered_message (c : Call) : option Message.t :=
  match call_arg c with
  | Some (ArgStatus e) => TaskStatus.message (TaskStatusUpdateEvent.status e)
  | Some (ArgTask t) => TaskStatus.message (Task.status t)
  | _ => None
  end.

Definition delivered_meta (c : Call) (k : string) : option json :=
  match delivered_message c with
  | Some m => meta_lookup m k
  | None => None
  end.

(** The loop of [send_task] without its [break]: every response of the list
    is prepared and handed to the callback.  This is the reference the loop
    is compared with, not code of the repository. *)
Fixpoint deliver_each (self : RemoteAgentConnections.t)
    (request : TaskSendParams.t) (task_callback : bool)
    (responses : list SendTaskStreamingResponse) : Py unit :=
  match responses with
  | [] => ret tt
  | response :: rest =>
      let* result :=
        RemoteAgentConnections.prepare request
          (JSONRPCResponse.result response) in
      let* _ :=
        if task_callback then
          invoke_callback
            {| call_arg := RemoteAgentConnections.callback_arg result;
               call_card := Some (RemoteAgentConnections.card self) |}
        else ret tt in
      deliver_each self request task_callback rest
  end.

(** The world after the callback, if there is one, was called with
    [result]. *)
Definition callback_world (self : RemoteAgentConnections.t)
    (task_callback : bool) (result : option StreamEvent) (w : World) : World :=
  if task_callback then
    after_call {| call_arg := RemoteAgentConnections.callback_arg result;
                  call_card := Some (RemoteAgentConnections.card self) |} w
  else w.

(** [c] is the call the loop makes for [response], in some state of the
    UUID generator. *)
Definition call_for (self : RemoteAgentConnections.t)
    (request : TaskSendParams.t) (response : SendTaskStreamingResponse)
    (c : Call) : Prop :=
  exists w result w',
    RemoteAgentConnections.prepare request (JSONRPCResponse.result response) w
      = (Ok result, w')
    /\ c = {| call_arg := RemoteAgentConnections.callback_arg result;
              call_card := Some (RemoteAgentConnections.card self) |}.


(** [key in cache._cache_data]: the existence check on the cache. *)
Definition cache_contains (cache : InMemoryCache.t) (key : string) : bool :=
  bool_decide (is_Some (InMemoryCache._cache_data cache !! key)).

(** Every key with a deadline has a value. *)
Definition cache_consistent (cache : InMemoryCache.t) : Prop :=
  forall key : string,
    is_Some (InMemoryCache._ttl cache !! key) ->
    is_Some (InMemoryCache._cache_data cache !! key).

(** The seven method strings, as the specification lists them. *)
Definition known_methods : list string :=
  [ "tasks/send"; "tasks/sendSubscribe"; "tasks/get"; "tasks/cancel";
    "tasks/setPushNotification/set"; "tasks/pushNotification/get";
    "tasks/reSubscribe" ].

(** A response carries exactly one of [result] and [error]. *)
Definition exactly_one {R} (r : JSONRPCResponse.t R) : Prop :=
  (is_Some (JSONRPCResponse.result r) /\ JSONRPCResponse.error r = None)
  \/ (JSONRPCResponse.result r = None /\ is_Some (JSONRPCResponse.error r)).

(** The claims and the token [_generate_jwt] makes for [data] at [now]. *)
Definition signed_claims `{JWTLibrary} (data : dict) (now : Q) : dict :=
  [ ("iat", JInt (int_of now));
    ("request_body_sha256",
      JStr (PushNotificationAuth._calculate_request_body_sha256 (JObj data))) ].

Definition signed_token `{JWTLibrary} (key : PyJWK) (data : dict) (now : Q)
    : string :=
  jwt_encode (signed_claims data now) key [("kid", JStr (key_id key))] "RS256".

(** The request with another body under the same header. *)
Definition with_body (request : Request) (other : json) : Request :=
  {| authorization := authorization request; body := Some other |}.

(** ** Reference instances of the interfaces and concrete inputs *)

(** Field validators that accept the plainest inputs only: text parts,
    messages, the parameters of the requests but the push-notification
    configuration, and responses that carry a status update. *)
Definition plain_rpc_id (j : json) : option rpc_id :=
  match j with
  | JStr s => Some (IdStr s)
  | JInt n => Some (IdInt n)
  | JNull => Some IdNone
  | _ => None
  end.

Definition plain_str (o : option json) : option string :=
  match o with
  | Some (JStr s) => Some s
  | _ => None
  end.

Definition plain_meta (o : option json) : option (option dict) :=
  match o with
  | None | Some JNull => Some None
  | Some (JObj d) => Some (Some d)
  | Some _ => None
  end.

Definition plain_part (j : json) : option Part :=
  match j with
  | JObj kvs =>
      match dict_get kvs "type", dict_get kvs "text" with
      | Some (JStr "text"), Some (JStr text) =>
          md ← plain_meta (dict_get kvs "meta_data"); Some (TextPart text md)
      | _, _ => None
      end
  | _ => None
  end.

Definition plain_role (o : option json) : option Role :=
  match o with
  | Some (JStr "user") => Some user
  | Some (JStr "agent") => Some agent
  | _ => None
  end.

Definition plain_message (j : json) : option Message.t :=
  match j with
  | JObj kvs =>
      role ← plain_role (dict_get kvs "role");
      parts ← match dict_get kvs "parts" with
              | Some (JArr l) => mapM plain_part l
              | _ => None
              end;
      md ← plain_meta (dict_get kvs "meta_data");
      Some (Message.mk role parts md)
  | _ => None
  end.

Definition plain_task_id (j : json) : option TaskIdParams.t :=
  match j with
  | JObj kvs =>
      id ← plain_str (dict_get kvs "id");
      md ← plain_meta (dict_get kvs "meta_data");
      Some (TaskIdParams.mk id md)
  | _ => None
  end.

Definition plain_task_query (j : json) : option TaskQueryParams.t :=
  match j with
  | JObj kvs =>
      id ← plain_str (dict_get kvs "id");
      md ← plain_meta (dict_get kvs "meta_data");
      match dict_get kvs "historyLength" with
      | None | Some JNull => Some (TaskQueryParams.mk id md None)
      | Some (JInt n) => Some (TaskQueryParams.mk id md (Some n))
      | Some _ => None
      end
  | _ => None
  end.

Definition plain_task_send (j : json) : option TaskSendParams.t :=
  match j with
  | JObj kvs =>
      id ← plain_str (dict_get kvs "id");
      session ← plain_str (dict_get kvs "sessionId");
      message ← dict_get kvs "message" ≫= plain_message;
      md ← plain_meta (dict_get kvs "meta_data");
      Some (TaskSendParams.mk id session message None None None md)
  | _ => None
  end.

Definition plain_params (m : Method) : json -> option (params_type m) :=
  match m with
  | tasks_send | tasks_sendSubscribe => plain_task_send
  | tasks_get => plain_task_query
  | tasks_cancel | tasks_pushNotification_get | tasks_reSubscribe =>
      plain_task_id
  | tasks_setPushNotification_set => fun _ => None
  end.

Definition plain_state (o : option json) : option TaskState :=
  match o with
  | Some (JStr "submitted") => Some SUBMITTED
  | Some (JStr "working") => Some WORKING
  | Some (JStr "input_required") => Some INPUT_REQUIRED
  | Some (JStr "completed") => Some COMPLETED
  | Some (JStr "cancelled") => Some CANCELLED
  | Some (JStr "failed") => Some FAILED
  | Some (JStr "unknown") => Some UNKNOWN
  | _ => None
  end.

Definition plain_status (j : json) : option TaskStatus.t :=
  match j with
  | JObj kvs =>
      state ← plain_state (dict_get kvs "state");
      match dict_get kvs "message" with
      | None | Some JNull => Some (TaskStatus.mk state None 0)
      | Some jm => m ← plain_message jm; Some (TaskStatus.mk state (Some m) 0)
      end
  | _ => None
  end.

Definition plain_status_update (j : json) : option TaskStatusUpdateEvent.t :=
  match j with
  | JObj kvs =>
      id ← plain_str (dict_get kvs "id");
      status ← dict_get kvs "status" ≫= plain_status;
      md ← plain_meta (dict_get kvs "meta_data");
      match dict_get kvs "final" with
      | None => Some (TaskStatusUpdateEvent.mk id status false md)
      | Some (JBool b) => Some (TaskStatusUpdateEvent.mk id status b md)
      | Some _ => None
      end
  | _ => None
  end.

Definition plain_streaming_response (kwargs : dict)
    : option SendTaskStreamingResponse :=
  id ← match dict_get kwargs "id" with
       | None => Some IdNone
       | Some j => plain_rpc_id j
       end;
  match dict_get kwargs "result" with
  | None | Some JNull => Some (JSONRPCResponse.mk "2.0" id None None)
  | Some j =>
      e ← plain_status_update j;
      Some (JSONRPCResponse.mk "2.0" id (Some (StatusUpdate e)) None)
  end.

Definition plain_pydantic : Pydantic :=
  {| validate_rpc_id := plain_rpc_id;
     validate_params := plain_params;
     validate_task_response := fun _ => None;
     validate_streaming_response := plain_streaming_response;
     validate_push_response := fun _ => None |}.

(** A status update as it travels in an event of the stream. *)
Definition status_json (state : string) (final : bool) : json :=
  JObj [ ("jsonrpc", JStr "2.0"); ("id", JInt 1);
         ("result",
           JObj [ ("id", JStr "t1");
                  ("status", JObj [("state", JStr state)]);
                  ("final", JBool final) ]) ].

Definition three_events : sse_connection :=
  EventSource [ SseData (Some (status_json "working" false));
                SseData (Some (status_json "completed" true));
                SseData (Some (status_json "working" false)) ].

(** A UUID generator that counts. *)
Definition counting (n : nat) : UUID :=
  {| uuid_str := "uuid-" ++ pretty n; uuid_hex := "hex" ++ pretty n |}.

Definition w0 : World :=
  {| entropy := counting; drawn := 0; clock := 0; calls := [] |}.

Definition hello : Message.t :=
  Message.mk user [TextPart "hello" None] None.

Definition request_t1 : TaskSendParams.t :=
  TaskSendParams.mk "t1" "s1" hello None None None None.

Definition card_streaming : AgentCard.t :=
  AgentCard.mk "echo" None "http://localhost:10000" None "1" None
    (Some (AgentCapabilities.mk true false false)) ["text"] ["text"] [].

Definition echo_agent : RemoteAgentConnections.t :=
  RemoteAgentConnections.mk (A2AClient.mk "http://localhost:10000")
    card_streaming None None ∅.

Definition note_target : Message.t :=
  Message.mk agent []
    (Some [("conversation_id", JStr "of-target"); ("origin", JStr "server")]).

Definition note_source : Message.t :=
  Message.mk user []
    (Some [("conversation_id", JStr "of-request"); ("message_id", JStr "m1")]).

Definition message_with_id (message_id : string) : Message.t :=
  Message.mk agent [TextPart "working" None]
    (Some [("message_id", JStr message_id)]).

Definition event_with_id (state : TaskState) (message_id : string)
    (final : bool) : TaskStatusUpdateEvent.t :=
  TaskStatusUpdateEvent.mk "t1"
    (TaskStatus.mk state (Some (message_with_id message_id)) 0) final None.

Definition status_event (state : TaskState) (message_id : string)
    (final : bool) : SendTaskStreamingResponse :=
  JSONRPCResponse.mk "2.0" (IdStr "1")
    (Some (StatusUpdate (event_with_id state message_id final))) None.

(** A request whose message has a [message_id] of its own, as the host agent
    builds it. *)
Definition request_with_id : TaskSendParams.t :=
  TaskSendParams.mk "t1" "s1"
    (Message.mk user [TextPart "hello" None]
       (Some [("conversation_id", JStr "s1"); ("message_id", JStr "req")]))
    None None None (Some [("conversation_id", JStr "s1")]).

(** A reference JWT library without cryptography: the token is the text
    [kid.iat.digest], a key is its [kid], the key set is a list of [kid]s
    and the digest of a text is the text itself. *)
Fixpoint parse_digits (s : string) (acc : Z) : option Z :=
  match s with
  | EmptyString => Some acc
  | String a r =>
      let n := nat_of_ascii a in
      if Nat.leb 48 n && Nat.leb n 57 then
        parse_digits r (10 * acc + Z.of_nat (n - 48))
      else None
  end.

Fixpoint split_dot (s : string) : option (string * string) :=
  match s with
  | EmptyString => None
  | String a r =>
      if Nat.eqb (nat_of_ascii a) 46 then Some (EmptyString, r)
      else
        match split_dot r with
        | Some (x, y) => Some (String a x, y)
        | None => None
        end
  end.

Definition clear_encode (claims : dict) (key : string) (headers : dict)
    (algorithm : string) : string :=
  match dict_get claims "iat", dict_get claims "request_body_sha256" with
  | Some (JInt iat), Some (JStr digest) =>
      key ++ "." ++ pretty iat ++ "." ++ digest
  | _, _ => EmptyString
  end.

Definition clear_signing_key (jwks : list string) (token : string)
    : Res string :=
  match split_dot token with
  | Some (kid, _) =>
      if existsb (String.eqb kid) jwks then Ok kid
      else Raise (JWTError "PyJWKClientError")
  | None => Raise (JWTError "DecodeError")
  end.

Definition clear_decode (token : string) (key : string)
    (algorithms require : list string) (now : Q) : Res dict :=
  match split_dot token with
  | Some (kid, rest) =>
      match split_dot rest with
      | Some (iat_text, digest) =>
          match parse_digits iat_text 0 with
          | Some iat =>
              if String.eqb kid key && existsb (String.eqb "RS256") algorithms
              then Ok [("iat", JInt iat); ("request_body_sha256", JStr digest)]
              else Raise (JWTError "InvalidSignatureError")
          | None => Raise (JWTError "DecodeError")
          end
      | None => Raise (JWTError "DecodeError")
      end
  | None => Raise (JWTError "DecodeError")
  end.

Definition clear_jwt : JWTLibrary :=
  {| PyJWK := string;
     key_id := fun k => k;
     signing_key := string;
     PyJWKClient := list string;
     sha256_hexdigest := fun text => text;
     jwt_encode := clear_encode;
     get_signing_key_from_jwt := clear_signing_key;
     jwt_decode := clear_decode |}.

Definition sender_k1 : @PushNotificationSenderAuth.t clear_jwt :=
  @PushNotificationSenderAuth.mk clear_jwt [] (Some "k1").

Definition receiver_k1 : @PushNotificationReceiverAuth.t clear_jwt :=
  @PushNotificationReceiverAuth.mk clear_jwt [] (Some ["k1"]).

Definition body_done : dict := [("id", JStr "t1"); ("state", JStr "completed")].
Definition body_tampered : dict := [("id", JStr "t1"); ("state", JStr "failed")].

(** * Further code: the shared cache instance, callback-URL verification and
      the host agent *)

(** ** [InMemoryCache.__new__] and [__init__], lines 6-26

    The class attributes [_instance] and [_initialized], as one thread sees
    them.  An object without instance attributes is [None]; [__init__] gives
    it its dictionaries and the instance attribute [_initialized = True], so
    [self._initialized] reads [True] on an initialized object and the class
    attribute otherwise.  The locks are not modelled. *)

Module InMemoryCacheClass.
Record t : Type := mk
  { _instance : option (option InMemoryCache.t);
    _initialized : bool }.






End InMemoryCacheClass.




(** ** [verify_push_notification_url], lines 37-48 of push_notification_auth.py

    The network is the server behind [url]: what its answer to a GET with a
    given [validation_token] is. *)

Record GetResponse : Type :=
  { get_status : Z;
    text : string }.

Inductive get_outcome : Type :=
| GetRaises (msg : string)
| GetReturns (r : GetResponse).

Definition get_is_success (r : GetResponse) : bool :=
  (200 <=? get_status r)%Z && (get_status r <=? 299)%Z.

(** Every exception of the [try] block is logged and the function falls
    through to [return False]. *)
Definition verify_push_notification_url (url : string)
    (server : string -> string -> get_outcome) : Py bool :=
  let* u := uuid4 in
  let validation_token := uuid_str u in
  match server url validation_token with
  | GetRaises _ => ret false
  | GetReturns response =>
      if get_is_success response then
        ret (String.eqb (text response) validation_token)
      else ret false
  end.

(** ** [hosts/multi_agent/host_agent.py]

    The tool context of the agent framework is its [state] dictionary, the
    two action flags the host sets and the artifacts saved; [base64] is an
    interface. *)

(** Truth value of a Python object. *)
Definition truthy_json (j : json) : bool :=
  match j with
  | JNull => false
  | JBool b => b
  | JInt n => negb (n =? 0)%Z
  | JStr s => negb (String.eqb s "")
  | JArr l => negb (Nat.eqb (length l) 0)
  | JObj d => negb (Nat.eqb (length d) 0)
  end.

Class Base64 : Type :=
  { b64decode : string -> Res string }.

Module ToolContext.
Record t : Type := mk
  { state : dict;
    skip_summarization : option bool;
    escalate : option bool;
    saved_artifacts : list (option string * string) }.

Definition set_state (ctx : t) (k : string) (v : json) : t :=
  mk (dict_set (state ctx) k v) (skip_summarization ctx) (escalate ctx)
     (saved_artifacts ctx).
End ToolContext.

(** What [convert_part] returns: a [str], a [dict] or a part. *)
Inductive converted : Type :=
| AsText (text : string)
| AsData (data : dict)
| AsPart (p : Part).

(** [convert_part], lines 27-44.  In the file branch the construction of the
    blob reads [part.file.mime_type]; the field of [FileContent] is
    [mimeType], so the read raises and the statements after it (saving the
    artifact, setting the action flags, the return) are never reached.
    [b64decode] of [None] is a [TypeError]. *)
Definition convert_part `{Base64} (part : Part) (tool_context : ToolContext.t)
    : Res converted * ToolContext.t :=
  match part with
  | TextPart text _ => (Ok (AsText text), tool_context)
  | DataPart data _ => (Ok (AsData data), tool_context)
  | FilePart file _ =>
      let file_id := FileContent.name file in
      match FileContent.bytes file with
      | None => (Raise (TypeError "argument should be a bytes-like object"),
                 tool_context)
      | Some encoded =>
          match b64decode encoded with
          | Raise e => (Raise e, tool_context)
          | Ok file_bytes => (Raise (AttributeError "mime_type"), tool_context)
          end
      end
  end.

(** [convert_parts], lines 47-51. *)
Fixpoint convert_parts `{Base64} (parts : list Part)
    (tool_context : ToolContext.t) : Res (list converted) * ToolContext.t :=
  match parts with
  | [] => (Ok [], tool_context)
  | p :: rest =>
      match convert_part p tool_context with
      | (Raise e, ctx) => (Raise e, ctx)
      | (Ok v, ctx) =>
          match convert_parts rest ctx with
          | (Raise e, ctx') => (Raise e, ctx')
          | (Ok vs, ctx') => (Ok (v :: vs), ctx')
          end
      end
  end.

(** [state[k]] *)
Definition state_item (state : dict) (k : string) : Res json :=
  match dict_get state k with
  | Some v => Ok v
  | None => Raise (KeyError k)
  end.

(** A [str] field of a pydantic model takes a string and nothing else. *)
Definition str_field (field : string) (v : json) : Res string :=
  match v with
  | JStr s => Ok s
  | _ => Raise (ValidationError field)
  end.

Definition is_terminal (s : TaskState) : bool :=
  match s with
  | COMPLETED | CANCELLED | FAILED | UNKNOWN => true
  | _ => false
  end.

Module HostAgent.
Record t : Type := mk
  { task_callback : bool;
    remote_agent_connections : gmap string RemoteAgentConnections.t;
    cards : gmap string AgentCard.t }.

(** [before_model_callback], lines 124-129, on the state of the context. *)
Definition before_model_callback (state : dict) : Py dict :=
  let inactive :=
    match dict_get state "session_active" with
    | None => true
    | Some v => negb (truthy_json v)
    end in
  if inactive then
    let* state1 :=
      if negb (dict_mem state "session_id") then
        let* u := uuid4 in
        ret (dict_set state "session_id" (JStr (uuid_str u)))
      else ret state in
    ret (dict_set state1 "session_active" (JBool true))
  else ret state.

(** Lines 162-170 of [send_task]: the metadata of the outgoing message. *)
Definition message_metadata (state : dict) (session_id : json) : Py dict :=
  let* inherited :=
    match dict_get state "input_message_metadata" with
    | None => ret ([], JStr "")
    | Some (JObj given) =>
        ret (dict_update [] given,
             match dict_get given "message_id" with
             | Some v => v
             | None => JStr ""
             end)
    | Some _ => raise (TypeError "argument after ** must be a mapping")
    end in
  let* message_id :=
    if negb (truthy_json (snd inherited)) then
      let* u := uuid4 in ret (JStr (uuid_str u))
    else ret (snd inherited) in
  ret (dict_update (fst inherited)
         [("conversation_id", session_id); ("message_id", message_id)]).

(** Lines 155-181 of [send_task]: the request for the remote agent. *)
Definition build_request (state : dict) (message : string)
    : Py TaskSendParams.t :=
  let* task_id :=
    lift (if dict_mem state "task_id" then state_item state "task_id"
          else state_item state "session_id") in
  let* session_id := lift (state_item state "session_id") in
  let* meta_data := message_metadata state session_id in
  let* id := lift (str_field "id" task_id) in
  let* session := lift (str_field "sessionId" session_id) in
  ret (TaskSendParams.mk id session
         (Message.mk user [TextPart message None] (Some meta_data))
         (Some ["text"; "text/plain"; "image/png"]) None None
         (Some [("conversation_id", session_id)])).

(** Lines 183-206 of [send_task]: what is done with the task that came
    back. *)
Definition digest_task `{Base64} (agent_name : string) (task : option Task.t)
    (ctx : ToolContext.t) : Res (list converted) * ToolContext.t :=
  match task with
  | None => (Raise (AttributeError "status"), ctx)
  | Some task =>
      let task_state := TaskStatus.state (Task.status task) in
      let ctx1 :=
        ToolContext.set_state ctx "session_active"
          (JBool (negb (is_terminal task_state))) in
      let failure (what : string) :=
        (Raise (ValueError ("Agent " ++ agent_name ++ " task " ++ Task.id task
                            ++ " is " ++ what)), ctx1) in
      let proceed (ctx2 : ToolContext.t) :=
        let '(from_message, ctx3) :=
          match TaskStatus.message (Task.status task) with
          | Some m => convert_parts (Message.parts m) ctx2
          | None => (Ok [], ctx2)
          end in
        match from_message with
        | Raise e => (Raise e, ctx3)
        | Ok response =>
            (fix artifacts (l : list Artifact.t) (response : list converted)
                 (ctx : ToolContext.t) : Res (list converted) * ToolContext.t :=
               match l with
               | [] => (Ok response, ctx)
               | artifact :: rest =>
                   match convert_parts (Artifact.parts artifact) ctx with
                   | (Raise e, ctx') => (Raise e, ctx')
                   | (Ok vs, ctx') => artifacts rest (response ++ vs)%list ctx'
                   end
               end) (default [] (Task.artifacts task)) response ctx3
        end in
      match task_state with
      | INPUT_REQUIRED =>
          proceed (ToolContext.mk (ToolContext.state ctx1) (Some true)
                     (Some true) (ToolContext.saved_artifacts ctx1))
      | CANCELLED => failure "cancelled"
      | FAILED => failure "failed"
      | _ => proceed ctx1
      end
  end.

(** [send_task], lines 143-206. *)
Definition send_task `{Pydantic} `{Base64} (self : t) (agent_name : string)
    (message : string) (tool_context : ToolContext.t)
    (net : RemoteAgentConnections.network) (w : World)
    : Res (list converted) * ToolContext.t * World :=
  match remote_agent_connections self !! agent_name with
  | None =>
      (Raise (ValueError ("Agent " ++ agent_name ++ " not found")),
       tool_context, w)
  | Some client =>
      let ctx := ToolContext.set_state tool_context "agent" (JStr agent_name) in
      match cards self !! agent_name with
      | None => (Raise (KeyError agent_name), ctx, w)
      | Some card =>
          match build_request (ToolContext.state ctx) message w with
          | (Raise e, w1) => (Raise e, ctx, w1)
          | (Ok request, w1) =>
              match RemoteAgentConnections.send_task client request
                      (task_callback self) net w1 with
              | (Raise e, w2) => (Raise e, ctx, w2)
              | (Ok task, w2) =>
                  let '(r, ctx') := digest_task agent_name task ctx in
                  (r, ctx', w2)
              end
          end
      end
  end.
End HostAgent.

(** ** Observations for the further properties *)

(** The responses of a final status update and of one that follows it. *)
Definition final_then_working : list SendTaskStreamingResponse :=
  [ JSONRPCResponse.mk "2.0" (IdInt 1)
      (Some (StatusUpdate
         (TaskStatusUpdateEvent.mk "t1" (TaskStatus.mk COMPLETED None 0)
            true None))) None;
    JSONRPCResponse.mk "2.0" (IdInt 1)
      (Some (StatusUpdate
         (TaskStatusUpdateEvent.mk "t1" (TaskStatus.mk WORKING None 0)
            false None))) None ].


(** The keys of a dictionary, in order. *)
Definition keys (d : dict) : list string := map fst d.

(** What [convert_part] returns for a part that is not a file. *)
Definition plain_value (p : Part) : option converted :=
  match p with
  | TextPart text _ => Some (AsText text)
  | DataPart data _ => Some (AsData data)
  | FilePart _ _ => None
  end.

(** The truth value of [state[k]], false when the key is absent. *)
Definition state_truthy (state : dict) (k : string) : bool :=
  match dict_get state k with
  | Some v => truthy_json v
  | None => false
  end.

(** The character an escape stands for, read off the front of a text. *)
Definition hex_value (a : ascii) : option nat :=
  let n := nat_of_ascii a in
  if Nat.leb 48 n && Nat.leb n 57 then Some (n - 48)
  else if Nat.leb 97 n && Nat.leb n 102 then Some (n - 87)
  else None.

Definition unescape_head (s : string) : option (ascii * string) :=
  match s with
  | EmptyString => None
  | String a r =>
      if Nat.eqb (nat_of_ascii a) 92 then
        match r with
        | String b r' =>
            let m := nat_of_ascii b in
            if Nat.eqb m 34 then Some (ascii_of_nat 34, r')
            else if Nat.eqb m 92 then Some (ascii_of_nat 92, r')
            else if Nat.eqb m 98 then Some (ascii_of_nat 8, r')
            else if Nat.eqb m 102 then Some (ascii_of_nat 12, r')
            else if Nat.eqb m 110 then Some (ascii_of_nat 10, r')
            else if Nat.eqb m 114 then Some (ascii_of_nat 13, r')
            else if Nat.eqb m 116 then Some (ascii_of_nat 9, r')
            else if Nat.eqb m 117 then
              match r' with
              | String _ (String _ (String h (String l r''))) =>
                  match hex_value h, hex_value l with
                  | Some x, Some y => Some (ascii_of_nat (16 * x + y), r'')
                  | _, _ => None
                  end
              | _ => None
              end
            else None
        | EmptyString => None
        end
      else if Nat.eqb (nat_of_ascii a) 34 then None
      else Some (a, r)
  end.

(** * Properties *)

(** ** Dictionaries *)

Lemma dict_get_set_eq (d : dict) (k : string) (v : json) :
  dict_get (dict_set d k v) k = Some v.
Proof.
  induction d as [|[k' v'] d IH]; simpl.
  - now rewrite String.eqb_refl.
  - destruct (String.eqb_spec k' k) as [->|Hne]; simpl.
    + now rewrite String.eqb_refl.
    + destruct (String.eqb_spec k' k); [contradiction|exact IH].
Qed.

Lemma dict_get_set_ne (d : dict) (k k' : string) (v : json) :
  k <> k' -> dict_get (dict_set d k v) k' = dict_get d k'.
Proof.
  intros Hne.
  induction d as [|[k0 v0] d IH]; simpl.
  - destruct (String.eqb_spec k k'); [contradiction|reflexivity].
  - destruct (String.eqb_spec k0 k) as [->|Hk]; simpl.
    + destruct (String.eqb_spec k k'); [contradiction|reflexivity].
    + now rewrite IH.
Qed.

Lemma dict_get_absent (d : dict) (k : string) :
  ~ In k (map fst d) -> dict_get d k = None.
Proof.
  induction d as [|[k' v'] d IH]; simpl; intros Hnot; [reflexivity|].
  destruct (String.eqb_spec k' k) as [->|Hne].
  - exfalso. apply Hnot. now left.
  - apply IH. intros Hin. apply Hnot. now right.
Qed.

(** After [d.update(s)] a key has the value [s] gives it and, failing that,
    the value it had in [d]. *)
Lemma dict_get_update (s d : dict) (k : string) :
  distinct_keys s ->
  dict_get (dict_update d s) k =
    match dict_get s k with
    | Some v => Some v
    | None => dict_get d k
    end.
Proof.
  unfold dict_update, distinct_keys.
  revert d. induction s as [|[k0 v0] s IH]; intros d Hnd; simpl.
  - reflexivity.
  - apply NoDup_cons in Hnd as [Hfresh Hnd].
    rewrite (IH _ Hnd).
    destruct (String.eqb_spec k0 k) as [->|Hne].
    + rewrite dict_get_absent, dict_get_set_eq; [reflexivity|].
      now rewrite <- list_elem_of_In.
    + rewrite dict_get_set_ne by exact Hne. reflexivity.
Qed.

Lemma dict_get_copy (s : dict) (k : string) :
  distinct_keys s -> dict_get (dict_copy s) k = dict_get s k.
Proof.
  intros Hnd. unfold dict_copy. rewrite dict_get_update by exact Hnd.
  now destruct (dict_get s k).
Qed.

Lemma truthy_dict_false (o : option dict) (k : string) :
  truthy_dict o = false -> dict_get (default [] o) k = None.
Proof. destruct o as [[|kv d]|]; simpl; [reflexivity|discriminate|reflexivity]. Qed.

(** ** [merge_metadata] *)

#[export] Instance Message_meta_lawful : LawfulMetaData Message.t.
Proof. intros a md. reflexivity. Qed.

#[export] Instance TaskSendParams_meta_lawful : LawfulMetaData TaskSendParams.t.
Proof. intros a md. reflexivity. Qed.

#[export] Instance Task_meta_lawful : LawfulMetaData Task.t.
Proof. intros a md. reflexivity. Qed.

#[export] Instance StreamEvent_meta_lawful : LawfulMetaData StreamEvent.
Proof. intros [e|e] md; reflexivity. Qed.

(** An argument that is [None] has no [meta_data]: nothing happens. *)
Lemma merge_metadata_None_target {T S} `{HasMetaData T} `{HasMetaData S}
    (source : option S) :
  merge_metadata (@None T) source = None.
Proof. reflexivity. Qed.

(** A source without metadata, or with an empty one, changes nothing. *)
Lemma merge_metadata_empty_source {T S} `{HasMetaData T} `{HasMetaData S}
    (t : T) (s : S) :
  truthy_dict (get_meta_data s) = false ->
  merge_metadata (Some t) (Some s) = Some t.
Proof.
  intros Hs. unfold merge_metadata. rewrite Hs.
  now rewrite andb_false_r.
Qed.

(** C1, as the code has it.  After [merge_metadata(target, source)] every
    key of the source's metadata is in the target's metadata with the
    SOURCE's value, also when the target had the key before; a key the
    source lacks keeps the value the target had. *)
Theorem merge_metadata_source_wins {T S} `{LawfulMetaData T} `{HasMetaData S}
    (t : T) (s : S) :
  distinct_keys (default [] (get_meta_data s)) ->
  exists t' : T,
    merge_metadata (Some t) (Some s) = Some t'
    /\ forall k : string,
         meta_lookup t' k =
           match meta_lookup s k with
           | Some v => Some v
           | None => meta_lookup t k
           end.
Proof.
  intros Hnd. unfold merge_metadata, meta_lookup.
  destruct (truthy_dict (get_meta_data s)) eqn:Hs.
  - destruct (truthy_dict (get_meta_data t)) eqn:Ht; simpl.
    + eexists; split; [reflexivity|]. intros k.
      rewrite get_set_meta_data. simpl. now apply dict_get_update.
    + eexists; split; [reflexivity|]. intros k.
      rewrite get_set_meta_data. simpl.
      rewrite dict_get_copy by exact Hnd.
      rewrite (truthy_dict_false _ k Ht). now destruct (dict_get _ k).
  - rewrite andb_false_r. eexists; split; [reflexivity|]. intros k.
    now rewrite (truthy_dict_false _ k Hs).
Qed.

Lemma merge_metadata_source_wins_witness :
  distinct_keys (default [] (get_meta_data note_source))
  /\ exists t' : Message.t,
       merge_metadata (Some note_target) (Some note_source) = Some t'
       /\ forall k : string,
            meta_lookup t' k =
              match meta_lookup note_source k with
              | Some v => Some v
              | None => meta_lookup note_target k
              end.
Proof.
  assert (Hnd : distinct_keys (default [] (get_meta_data note_source))).
  { unfold distinct_keys. simpl.
    repeat (apply NoDup_cons; split); try apply NoDup_nil_2;
      intros Hin; apply list_elem_of_In in Hin; simpl in Hin;
      intuition discriminate. }
  split; [exact Hnd|].
  exact (merge_metadata_source_wins note_target note_source Hnd).
Defined.

(** C1, as claimed, fails: the target's own value of a key that the request
    also has is replaced by the request's value. *)
Lemma merge_metadata_conflict_counterexample :
  meta_lookup note_target "conversation_id" = Some (JStr "of-target")
  /\ meta_lookup note_source "conversation_id" = Some (JStr "of-request")
  /\ merge_metadata (Some note_target) (Some note_source)
     = Some (Message.mk agent []
               (Some [ ("conversation_id", JStr "of-request");
                       ("origin", JStr "server");
                       ("message_id", JStr "m1") ])).
Proof. repeat split. Qed.

(** ** The data model *)


Lemma FileContent_success_value (name mimeType bytes uri : option string)
    (fc : FileContent.t) :
  FileContent.init name mimeType bytes uri = Ok fc ->
  fc = FileContent.mk name mimeType bytes uri.
Proof.
  unfold FileContent.init, FileContent.check_content. simpl.
  destruct (truthy_str bytes), (truthy_str uri); simpl; congruence.
Qed.

(** The empty string is not a value: [bytes=""] alone is rejected. *)
Example FileContent_empty_bytes :
  FileContent.init None None (Some "") None
  = Raise (ValidationError "Either bytes or uri must be provided").
Proof. reflexivity. Qed.

(** C3, as the code has it.  [JSONRPCResponse] has no validator: whatever
    [result] and [error] are given, both, neither or one of them, the
    response is constructed and holds them as given.  The two responses the
    server helpers build carry an error and no result. *)
Theorem JSONRPCResponse_accepts_any_combination :
  (forall (R : Type) (id : rpc_id) (result : option R)
          (error : option JSONRPCError.t),
      JSONRPCResponse.init id result error
      = Ok (JSONRPCResponse.mk "2.0" id result error))
  /\ (forall request_id r,
        new_incompatible_types_error request_id = Ok r \/
        new_not_implemented_error request_id = Ok r ->
        exactly_one r /\ JSONRPCResponse.result r = None).
Proof.
  split; [reflexivity|].
  intros request_id r [Hr|Hr]; injection Hr as <-;
    (split; [right; split; [reflexivity|eexists; reflexivity]|reflexivity]).
Qed.

(** C3, as claimed, fails: a response with neither field, and one with both,
    are constructed. *)
Lemma JSONRPCResponse_counterexample :
  (exists r : JSONRPCResponse.t json,
      JSONRPCResponse.init (IdInt 1) None None = Ok r /\ ~ exactly_one r)
  /\ (exists r : JSONRPCResponse.t json,
        JSONRPCResponse.init (IdInt 1) (Some (JObj [("id", JStr "t1")]))
          (Some InternalError) = Ok r
        /\ ~ exactly_one r).
Proof.
  split; eexists; (split; [reflexivity|]); unfold exactly_one; simpl.
  - intros [[[x Hx] _]|[_ [x Hx]]]; discriminate.
  - intros [[_ H]|[H _]]; discriminate.
Qed.

(** ** [are_modalities_compatible] *)

Lemma str_in_In (x : string) (modes : list string) :
  str_in x modes = true <-> In x modes.
Proof.
  unfold str_in. rewrite existsb_exists. split.
  - intros [y [Hin Heq]]. apply String.eqb_eq in Heq. now subst.
  - intros Hin. exists x. split; [exact Hin|apply String.eqb_refl].
Qed.

(** C10.  The function returns [True] when the client list is [None] or
    empty, or the server list is [None] or empty; for two non-empty lists it
    returns [True] exactly when an element of the client list is in the
    server list. *)
Theorem are_modalities_compatible_spec
    (server_output_modes client_output_modes : option (list string)) :
  (client_output_modes = None \/ client_output_modes = Some []
   \/ server_output_modes = None \/ server_output_modes = Some [] ->
   are_modalities_compatible server_output_modes client_output_modes = true)
  /\ (forall s c : list string,
        server_output_modes = Some s -> client_output_modes = Some c ->
        s <> [] -> c <> [] ->
        (are_modalities_compatible server_output_modes client_output_modes
           = true
         <-> exists x, In x c /\ In x s)).
Proof.
  unfold are_modalities_compatible. split.
  - intros [ -> | [ -> | [ -> | -> ] ] ]; simpl; try reflexivity;
      now destruct (none_or_empty client_output_modes).
  - intros s c -> -> Hs Hc.
    destruct s as [|s0 s]; [contradiction|].
    destruct c as [|c0 c]; [contradiction|].
    cbn [none_or_empty length Nat.eqb default].
    rewrite existsb_exists. split.
    + intros [x [Hin Hx]]. exists x. split; [exact Hin|now apply str_in_In].
    + intros [x [Hin Hx]]. exists x. split; [exact Hin|now apply str_in_In].
Qed.

(** ** The request union *)

(** The literals of the seven request classes are the seven known methods. *)
Lemma method_literal_known (m : Method) : In (method_literal m) known_methods.
Proof. destruct m; simpl; tauto. Qed.

Lemma discriminate_literal (m : Method) :
  A2ARequest.discriminate (method_literal m) = Some m.
Proof. destruct m; reflexivity. Qed.

Lemma discriminate_unknown (tag : string) :
  ~ In tag known_methods -> A2ARequest.discriminate tag = None.
Proof.
  intros Hnot.
  destruct (A2ARequest.discriminate tag) as [m|] eqn:Hd; [|reflexivity].
  exfalso. apply Hnot.
  apply find_some in Hd as [_ Heq].
  apply String.eqb_eq in Heq. subst tag. apply method_literal_known.
Qed.

(** C8.  A payload whose [method] is a string other than the seven known
    ones is rejected by the union: validation raises, whatever the rest of
    the payload and whatever the field validators do, and nothing else
    happens (no UUID is drawn, no request value is produced). *)
Theorem A2ARequest_unknown_method_rejected `{Pydantic} (kwargs : dict)
    (tag : string) (w : World) :
  dict_get kwargs "method" = Some (JStr tag) ->
  ~ In tag known_methods ->
  A2ARequest.validate_python (JObj kwargs) w
  = (Raise (ValidationError "union_tag_invalid"), w).
Proof.
  intros Hm Hnot. unfold A2ARequest.validate_python.
  rewrite Hm, (discriminate_unknown tag Hnot). reflexivity.
Qed.

Lemma A2ARequest_unknown_method_rejected_witness :
  dict_get [("method", JStr "tasks/delete"); ("params", JObj [])] "method"
    = Some (JStr "tasks/delete")
  /\ ~ In "tasks/delete" known_methods
  /\ @A2ARequest.validate_python plain_pydantic
       (JObj [("method", JStr "tasks/delete"); ("params", JObj [])]) w0
     = (Raise (ValidationError "union_tag_invalid"), w0).
Proof.
  assert (Hnot : ~ In "tasks/delete" known_methods).
  { simpl. intros H. repeat (destruct H as [H|H]; [discriminate H|]). exact H. }
  split; [reflexivity|]. split; [exact Hnot|].
  exact (@A2ARequest_unknown_method_rejected plain_pydantic
           [("method", JStr "tasks/delete"); ("params", JObj [])]
           "tasks/delete" w0 eq_refl Hnot).
Defined.

(** A payload without [method], or whose [method] is not a string, is
    rejected as well. *)
Lemma A2ARequest_missing_method_rejected `{Pydantic} (kwargs : dict) (w : World) :
  dict_get kwargs "method" = None ->
  A2ARequest.validate_python (JObj kwargs) w
  = (Raise (ValidationError "union_tag_not_found"), w).
Proof. intros Hm. unfold A2ARequest.validate_python. now rewrite Hm. Qed.

(** ** The unary client *)

(** C6, the transport failure.  When [client.post] raises, [_send_request]
    does not raise [A2AClientHTTPError]: its handler reads
    [response.status_code] while [response] is unbound. *)
Theorem send_request_transport_failure_unbound (m : Method) (self : A2AClient.t)
    (request : JSONRPCRequest.t m) (msg : string) :
  A2AClient._send_request self request (PostRaises msg)
  = Raise (UnboundLocalError "response").
Proof. reflexivity. Qed.

(** A status outside 200..299 gives the HTTP error with that status. *)
Lemma send_request_bad_status (m : Method) (self : A2AClient.t)
    (request : JSONRPCRequest.t m) (r : HttpResponse) :
  A2AClient.is_success r = false ->
  A2AClient._send_request self request (PostReturns r)
  = Raise (A2AClientHTTPError (status_code r) "status").
Proof. intros Hs. unfold A2AClient._send_request. now rewrite Hs. Qed.

(** The five unary operations inherit both behaviours. *)
Lemma unary_transport_failure `{Pydantic} {R} (m : Method)
    (validate_response : dict -> option R) (self : A2AClient.t)
    (payload : dict) (msg : string) (w w' : World)
    (request : JSONRPCRequest.t m) :
  JSONRPCRequest.init m payload w = (Ok request, w') ->
  A2AClient.unary m validate_response self payload (PostRaises msg) w
  = (Raise (UnboundLocalError "response"), w').
Proof.
  intros Hreq. unfold A2AClient.unary, bind. rewrite Hreq. reflexivity.
Qed.

Lemma unary_bad_status `{Pydantic} {R} (m : Method)
    (validate_response : dict -> option R) (self : A2AClient.t)
    (payload : dict) (r : HttpResponse) (w w' : World)
    (request : JSONRPCRequest.t m) :
  JSONRPCRequest.init m payload w = (Ok request, w') ->
  A2AClient.is_success r = false ->
  A2AClient.unary m validate_response self payload (PostReturns r) w
  = (Raise (A2AClientHTTPError (status_code r) "status"), w').
Proof.
  intros Hreq Hs. unfold A2AClient.unary, bind. rewrite Hreq.
  unfold lift. now rewrite (send_request_bad_status m self request r Hs).
Qed.

(** Spelled out for the five operations: with a payload from which the
    request can be built, a transport failure ends each of them in the
    [UnboundLocalError]. *)
Lemma unary_operations_transport_failure `{Pydantic} (self : A2AClient.t)
    (payload : dict) (msg : string) (w : World) :
  (forall request w',
      JSONRPCRequest.init tasks_send payload w = (Ok request, w') ->
      A2AClient.send_task self payload (PostRaises msg) w
      = (Raise (UnboundLocalError "response"), w'))
  /\ (forall request w',
        JSONRPCRequest.init tasks_get payload w = (Ok request, w') ->
        A2AClient.get_task self payload (PostRaises msg) w
        = (Raise (UnboundLocalError "response"), w'))
  /\ (forall request w',
        JSONRPCRequest.init tasks_cancel payload w = (Ok request, w') ->
        A2AClient.cancel_task self payload (PostRaises msg) w
        = (Raise (UnboundLocalError "response"), w'))
  /\ (forall request w',
        JSONRPCRequest.init tasks_setPushNotification_set payload w
          = (Ok request, w') ->
        A2AClient.set_task_callback self payload (PostRaises msg) w
        = (Raise (UnboundLocalError "response"), w'))
  /\ (forall request w',
        JSONRPCRequest.init tasks_pushNotification_get payload w
          = (Ok request, w') ->
        A2AClient.get_task_callback self payload (PostRaises msg) w
        = (Raise (UnboundLocalError "response"), w')).
Proof.
  repeat split; intros request w' Hreq;
    eapply unary_transport_failure; exact Hreq.
Qed.

Example cancel_task_connection_refused :
  fst (@A2AClient.cancel_task plain_pydantic (A2AClient.mk "http://localhost:1")
         [("params", JObj [("id", JStr "t1")])]
         (PostRaises "connection refused") w0)
  = Raise (UnboundLocalError "response").
Proof. reflexivity. Qed.

(** ** The cache *)



(** The expiry index never outlives the data: the invariant holds at the
    start and every operation keeps it; under it [get] does not raise. *)
Lemma cache_consistent_init : cache_consistent InMemoryCache.init.
Proof. intros key [x Hx]. simpl in Hx. rewrite lookup_empty in Hx. discriminate. Qed.

Lemma cache_consistent_set (c : InMemoryCache.t) (k : string) (v : json)
    (ttl : option Z) (now : Q) :
  cache_consistent c -> cache_consistent (InMemoryCache.set c k v ttl now).
Proof.
  intros Hc key. unfold InMemoryCache.set.
  destruct ttl as [n|]; simpl; destruct (decide (k = key)) as [->|Hne].
  - rewrite !lookup_insert_eq. eauto.
  - rewrite !lookup_insert_ne by exact Hne. apply Hc.
  - rewrite lookup_insert_eq. eauto.
  - rewrite lookup_insert_ne, lookup_delete_ne by exact Hne. apply Hc.
Qed.



Lemma cache_consistent_clear (c : InMemoryCache.t) :
  cache_consistent (snd (InMemoryCache.clear c)).
Proof. apply cache_consistent_init. Qed.



(** At the deadline itself the entry is still served. *)
Example cache_at_deadline :
  fst (InMemoryCache.get
         (InMemoryCache.set InMemoryCache.init "k" (JStr "v") (Some 1%Z) 100)
         "k" JNull 101)
  = Ok (JStr "v").
Proof. reflexivity. Qed.

(** ** The loop of [send_task] *)

Lemma assign_message_id_spec (m : Message.t) (w : World) :
  exists m',
    assign_message_id m w = (Ok m', after_draw w)
    /\ meta_lookup m' "message_id"
       = Some (JStr (uuid_str (entropy w (drawn w))))
    /\ (forall v, meta_lookup m "message_id" = Some v ->
                  meta_lookup m' "last_message_id" = Some v).
Proof.
  unfold assign_message_id, bind, uuid4, ret, meta_lookup.
  eexists. split; [reflexivity|]. simpl. split.
  - apply dict_get_set_eq.
  - intros v Hv.
    assert (Hmd : dict_get
              (if truthy_dict (Message.meta_data m)
               then default [] (Message.meta_data m) else []) "message_id"
            = Some v).
    { destruct (Message.meta_data m) as [[|kv d]|]; simpl in *;
        try discriminate; exact Hv. }
    rewrite Hmd.
    rewrite dict_get_set_ne by discriminate.
    apply dict_get_set_eq.
Qed.

(** What [update_status] does to a status that has a message. *)
Lemma update_status_spec (request : TaskSendParams.t) (st : TaskStatus.t)
    (m merged : Message.t) (w : World) :
  TaskStatus.message st = Some m ->
  merge_metadata (Some m) (Some (TaskSendParams.message request))
    = Some merged ->
  exists m',
    update_status request st w = (Ok (set_status_message st m'), after_draw w)
    /\ meta_lookup m' "message_id"
       = Some (JStr (uuid_str (entropy w (drawn w))))
    /\ (forall v, meta_lookup merged "message_id" = Some v ->
                  meta_lookup m' "last_message_id" = Some v).
Proof.
  intros Hm Hmerge. unfold update_status. rewrite Hm, Hmerge.
  destruct (assign_message_id_spec merged w) as (m' & Hrun & Hid & Hlast).
  exists m'. unfold bind. rewrite Hrun. auto.
Qed.

(** [prepare] never raises and never calls back; it keeps [final]. *)
Lemma prepare_total (request : TaskSendParams.t) (result : option StreamEvent)
    (w : World) :
  exists result' w',
    RemoteAgentConnections.prepare request result w = (Ok result', w')
    /\ RemoteAgentConnections.is_final result'
       = RemoteAgentConnections.is_final result
    /\ calls w' = calls w.
Proof.
  unfold RemoteAgentConnections.prepare.
  destruct result as [ev|]; [|do 2 eexists; repeat split].
  assert (Hmerge : exists ev',
             merge_metadata (Some ev) (Some request) = Some ev'
             /\ RemoteAgentConnections.is_final (Some ev')
                = RemoteAgentConnections.is_final (Some ev)).
  { unfold merge_metadata.
    destruct (truthy_dict (get_meta_data ev) && truthy_dict (get_meta_data request));
      [|destruct (truthy_dict (get_meta_data request))];
      eexists; (split; [reflexivity|]); destruct ev; reflexivity. }
  destruct Hmerge as (ev' & -> & Hfinal).
  destruct ev' as [e|e]; [|do 2 eexists; repeat split; exact Hfinal].
  unfold update_status, bind.
  destruct (TaskStatus.message (TaskStatusUpdateEvent.status e)) as [m|];
    [|do 2 eexists; repeat split; destruct e; exact Hfinal].
  destruct (merge_metadata (Some m) (Some (TaskSendParams.message request)))
    as [m1|]; [|do 2 eexists; repeat split; destruct e; exact Hfinal].
  destruct (assign_message_id_spec m1 w) as (m' & Hrun & _).
  rewrite Hrun. do 2 eexists. repeat split. exact Hfinal.
Qed.

Lemma consume_step (self : RemoteAgentConnections.t)
    (request : TaskSendParams.t) (task_callback : bool)
    (response : SendTaskStreamingResponse)
    (rest : list (item SendTaskStreamingResponse)) (w : World) :
  RemoteAgentConnections.consume self request task_callback
    (Yield response :: rest) w
  = match RemoteAgentConnections.prepare request
            (JSONRPCResponse.result response) w with
    | (Ok result, w1) =>
        if RemoteAgentConnections.is_final result then
          (Ok tt, callback_world self task_callback result w1)
        else
          RemoteAgentConnections.consume self request task_callback rest
            (callback_world self task_callback result w1)
    | (Raise e, w1) => (Raise e, w1)
    end.
Proof.
  cbn [RemoteAgentConnections.consume]. unfold bind at 1.
  destruct (RemoteAgentConnections.prepare request
              (JSONRPCResponse.result response) w) as [[result|e] w1];
    [|reflexivity].
  unfold bind, callback_world.
  destruct task_callback; simpl;
    destruct (RemoteAgentConnections.is_final result); reflexivity.
Qed.

Lemma deliver_each_step (self : RemoteAgentConnections.t)
    (request : TaskSendParams.t) (task_callback : bool)
    (response : SendTaskStreamingResponse)
    (rest : list SendTaskStreamingResponse) (w : World) :
  deliver_each self request task_callback (response :: rest) w
  = match RemoteAgentConnections.prepare request
            (JSONRPCResponse.result response) w with
    | (Ok result, w1) =>
        deliver_each self request task_callback rest
          (callback_world self task_callback result w1)
    | (Raise e, w1) => (Raise e, w1)
    end.
Proof.
  cbn [deliver_each]. unfold bind at 1.
  destruct (RemoteAgentConnections.prepare request
              (JSONRPCResponse.result response) w) as [[result|e] w1];
    [|reflexivity].
  unfold bind, callback_world. destruct task_callback; reflexivity.
Qed.

(** Up to the first final event the loop is [deliver_each]; what follows
    that event on the wire is not looked at. *)
Lemma consume_until_final (self : RemoteAgentConnections.t)
    (request : TaskSendParams.t) (task_callback : bool)
    (before : list SendTaskStreamingResponse)
    (last : SendTaskStreamingResponse)
    (rest : list (item SendTaskStreamingResponse)) (w : World) :
  Forall (fun r => RemoteAgentConnections.is_final (JSONRPCResponse.result r)
                   = false) before ->
  RemoteAgentConnections.is_final (JSONRPCResponse.result last) = true ->
  RemoteAgentConnections.consume self request task_callback
    (map Yield before ++ Yield last :: rest) w
  = deliver_each self request task_callback (before ++ [last]) w.
Proof.
  intros Hbefore Hlast. revert w.
  induction Hbefore as [|r before Hr Hbefore IH]; intros w; simpl app.
  - rewrite consume_step, deliver_each_step.
    destruct (prepare_total request (JSONRPCResponse.result last) w)
      as (result & w1 & -> & Hfinal & _).
    rewrite Hfinal, Hlast. reflexivity.
  - cbn [map app]. rewrite consume_step, deliver_each_step.
    destruct (prepare_total request (JSONRPCResponse.result r) w)
      as (result & w1 & -> & Hfinal & _).
    rewrite Hfinal, Hr. apply IH.
Qed.

(** [deliver_each] calls back once per response, in order. *)
Lemma deliver_each_calls (self : RemoteAgentConnections.t)
    (request : TaskSendParams.t) (responses : list SendTaskStreamingResponse)
    (w : World) :
  exists (cs : list Call) (w' : World),
    deliver_each self request true responses w = (Ok tt, w')
    /\ calls w' = (calls w ++ cs)%list
    /\ Forall2 (call_for self request) responses cs.
Proof.
  revert w. induction responses as [|r responses IH]; intros w.
  - exists [], w. repeat split; [now rewrite app_nil_r|constructor].
  - rewrite deliver_each_step.
    destruct (prepare_total request (JSONRPCResponse.result r) w)
      as (result & w1 & Hprep & _ & Hcalls).
    rewrite Hprep. unfold callback_world.
    destruct (IH (after_call
                    {| call_arg := RemoteAgentConnections.callback_arg result;
                       call_card := Some (RemoteAgentConnections.card self) |}
                    w1)) as (cs & w' & Hrun & Hlog & Hall).
    eexists (_ :: cs), w'. split; [exact Hrun|]. split.
    + rewrite Hlog. simpl. rewrite Hcalls, <- app_assoc. reflexivity.
    + constructor; [|exact Hall]. exists w, result, w1. split; [exact Hprep|reflexivity].
Qed.

(** X7.  The loop of lines 47-64 on its own: given the responses the generator
    yields, the callback gets those up to and including the first final
    one, once each and in order, and none of what follows. *)
Lemma consume_stops_at_final (self : RemoteAgentConnections.t)
    (request : TaskSendParams.t)
    (before : list SendTaskStreamingResponse)
    (last : SendTaskStreamingResponse)
    (rest : list (item SendTaskStreamingResponse)) (w : World) :
  Forall (fun r => RemoteAgentConnections.is_final (JSONRPCResponse.result r)
                   = false) before ->
  RemoteAgentConnections.is_final (JSONRPCResponse.result last) = true ->
  exists (cs : list Call) (w' : World),
    RemoteAgentConnections.consume self request true
      (map Yield before ++ Yield last :: rest) w = (Ok tt, w')
    /\ calls w' = (calls w ++ cs)%list
    /\ Forall2 (call_for self request) (before ++ [last]) cs.
Proof.
  intros Hbefore Hlast.
  rewrite (consume_until_final self request true before last rest w Hbefore Hlast).
  apply deliver_each_calls.
Qed.

Example consume_two_of_three :
  map (fun c => delivered_meta c "last_message_id")
    (calls (snd (RemoteAgentConnections.consume echo_agent request_t1 true
                   [ Yield (status_event WORKING "a" false);
                     Yield (status_event COMPLETED "b" true);
                     Yield (status_event COMPLETED "c" true) ] w0)))
  = [Some (JStr "a"); Some (JStr "b")].
Proof. reflexivity. Qed.

Lemma merge_metadata_event (e : TaskStatusUpdateEvent.t)
    (request : TaskSendParams.t) :
  exists e',
    merge_metadata (Some (StatusUpdate e)) (Some request)
      = Some (StatusUpdate e')
    /\ TaskStatusUpdateEvent.status e' = TaskStatusUpdateEvent.status e
    /\ TaskStatusUpdateEvent.final e' = TaskStatusUpdateEvent.final e.
Proof.
  unfold merge_metadata.
  destruct (truthy_dict (get_meta_data (StatusUpdate e))
            && truthy_dict (get_meta_data request));
    [|destruct (truthy_dict (get_meta_data request))];
    eexists; repeat split.
Qed.

Lemma merge_metadata_message (m : Message.t) (source : Message.t) :
  exists merged, merge_metadata (Some m) (Some source) = Some merged.
Proof.
  unfold merge_metadata.
  destruct (truthy_dict (get_meta_data m) && truthy_dict (get_meta_data source));
    [|destruct (truthy_dict (get_meta_data source))]; eexists; reflexivity.
Qed.

(** One status update with a message: the call the loop makes for it. *)
Lemma consume_status_update (self : RemoteAgentConnections.t)
    (request : TaskSendParams.t) (r : SendTaskStreamingResponse)
    (e : TaskStatusUpdateEvent.t) (m merged : Message.t)
    (rest : list (item SendTaskStreamingResponse)) (w : World) :
  JSONRPCResponse.result r = Some (StatusUpdate e) ->
  TaskStatus.message (TaskStatusUpdateEvent.status e) = Some m ->
  merge_metadata (Some m) (Some (TaskSendParams.message request))
    = Some merged ->
  exists c : Call,
    RemoteAgentConnections.consume self request true (Yield r :: rest) w
    = (if TaskStatusUpdateEvent.final e then (Ok tt, after_call c (after_draw w))
       else RemoteAgentConnections.consume self request true rest
              (after_call c (after_draw w)))
    /\ delivered_meta c "message_id"
       = Some (JStr (uuid_str (entropy w (drawn w))))
    /\ (forall v, meta_lookup merged "message_id" = Some v ->
                  delivered_meta c "last_message_id" = Some v).
Proof.
  intros Hr Hm Hmerge. rewrite consume_step, Hr.
  unfold RemoteAgentConnections.prepare.
  destruct (merge_metadata_event e request) as (e' & -> & Hst & Hfin).
  rewrite Hst.
  destruct (update_status_spec request _ m merged w Hm Hmerge)
    as (m' & Hrun & Hid & Hlast).
  unfold bind. rewrite Hrun. cbn [ret RemoteAgentConnections.is_final
    TaskStatusUpdateEvent.final callback_world RemoteAgentConnections.callback_arg].
  rewrite Hfin. eexists. split; [reflexivity|].
  unfold delivered_meta, delivered_message. simpl. auto.
Qed.

(** C2, as the code has it.  Two status updates go through the loop, the
    first not final, and each status message carries a [message_id] once the
    request message's metadata has been merged into it.  Then each delivered
    message has as [last_message_id] the [message_id] that very message
    carried, and as [message_id] the UUID drawn for that update: the next
    draw for the first update, the one after it for the second; the two
    ids differ when the two draws do. *)
Theorem message_id_chain (self : RemoteAgentConnections.t)
    (request : TaskSendParams.t) (r1 r2 : SendTaskStreamingResponse)
    (e1 e2 : TaskStatusUpdateEvent.t) (m1 m2 merged1 merged2 : Message.t)
    (v1 v2 : json) (w : World) :
  JSONRPCResponse.result r1 = Some (StatusUpdate e1) ->
  JSONRPCResponse.result r2 = Some (StatusUpdate e2) ->
  TaskStatusUpdateEvent.final e1 = false ->
  TaskStatus.message (TaskStatusUpdateEvent.status e1) = Some m1 ->
  TaskStatus.message (TaskStatusUpdateEvent.status e2) = Some m2 ->
  merge_metadata (Some m1) (Some (TaskSendParams.message request))
    = Some merged1 ->
  merge_metadata (Some m2) (Some (TaskSendParams.message request))
    = Some merged2 ->
  meta_lookup merged1 "message_id" = Some v1 ->
  meta_lookup merged2 "message_id" = Some v2 ->
  exists (c1 c2 : Call) (w' : World),
    RemoteAgentConnections.consume self request true [Yield r1; Yield r2] w
      = (Ok tt, w')
    /\ calls w' = (calls w ++ [c1; c2])%list
    /\ delivered_meta c1 "last_message_id" = Some v1
    /\ delivered_meta c1 "message_id"
       = Some (JStr (uuid_str (entropy w (drawn w))))
    /\ delivered_meta c2 "last_message_id" = Some v2
    /\ delivered_meta c2 "message_id"
       = Some (JStr (uuid_str (entropy w (S (drawn w)))))
    /\ (uuid_str (entropy w (drawn w)) <> uuid_str (entropy w (S (drawn w))) ->
        delivered_meta c1 "message_id" <> delivered_meta c2 "message_id").
Proof.
  intros Hr1 Hr2 Hf1 Hm1 Hm2 Hg1 Hg2 Hv1 Hv2.
  destruct (consume_status_update self request r1 e1 m1 merged1 [Yield r2] w
              Hr1 Hm1 Hg1) as (c1 & Hrun1 & Hid1 & Hlast1).
  rewrite Hf1 in Hrun1.
  destruct (consume_status_update self request r2 e2 m2 merged2 []
              (after_call c1 (after_draw w)) Hr2 Hm2 Hg2)
    as (c2 & Hrun2 & Hid2 & Hlast2).
  exists c1, c2. eexists. split.
  - rewrite Hrun1, Hrun2.
    destruct (TaskStatusUpdateEvent.final e2); reflexivity.
  - simpl. rewrite <- app_assoc. repeat split; auto.
    intros Hneq Heq. apply Hneq.
    rewrite Hid1, Hid2 in Heq. simpl in Heq. congruence.
Qed.

Lemma message_id_chain_witness :
  TaskStatusUpdateEvent.final (event_with_id WORKING "a" false) = false
  /\ meta_lookup (message_with_id "a") "message_id" = Some (JStr "a")
  /\ meta_lookup (message_with_id "b") "message_id" = Some (JStr "b")
  /\ exists (c1 c2 : Call) (w' : World),
       RemoteAgentConnections.consume echo_agent request_t1 true
         [ Yield (status_event WORKING "a" false);
           Yield (status_event COMPLETED "b" true) ] w0
         = (Ok tt, w')
       /\ calls w' = (calls w0 ++ [c1; c2])%list
       /\ delivered_meta c1 "last_message_id" = Some (JStr "a")
       /\ delivered_meta c1 "message_id"
          = Some (JStr (uuid_str (entropy w0 (drawn w0))))
       /\ delivered_meta c2 "last_message_id" = Some (JStr "b")
       /\ delivered_meta c2 "message_id"
          = Some (JStr (uuid_str (entropy w0 (S (drawn w0)))))
       /\ (uuid_str (entropy w0 (drawn w0))
           <> uuid_str (entropy w0 (S (drawn w0))) ->
           delivered_meta c1 "message_id" <> delivered_meta c2 "message_id").
Proof.
  split; [reflexivity|]. split; [reflexivity|]. split; [reflexivity|].
  exact (message_id_chain echo_agent request_t1
           (status_event WORKING "a" false) (status_event COMPLETED "b" true)
           (event_with_id WORKING "a" false) (event_with_id COMPLETED "b" true)
           (message_with_id "a") (message_with_id "b")
           (message_with_id "a") (message_with_id "b")
           (JStr "a") (JStr "b") w0
           eq_refl eq_refl eq_refl eq_refl eq_refl eq_refl eq_refl
           eq_refl eq_refl).
Defined.

(** C2, as claimed, fails: the second update's [last_message_id] is the id
    its own message arrived with (["b"]), not the id the first update was
    given (["uuid-0"]). *)
Lemma message_id_chain_counterexample :
  map (fun c => (delivered_meta c "message_id",
                 delivered_meta c "last_message_id"))
    (calls (snd (RemoteAgentConnections.consume echo_agent request_t1 true
                   [ Yield (status_event WORKING "a" false);
                     Yield (status_event COMPLETED "b" true) ] w0)))
  = [ (Some (JStr "uuid-0"), Some (JStr "a"));
      (Some (JStr "uuid-1"), Some (JStr "b")) ].
Proof. reflexivity. Qed.

(** When the request message has a [message_id], the merge puts it on every
    status message, and both updates point back to the request. *)
Example message_id_chain_to_request :
  map (fun c => (delivered_meta c "message_id",
                 delivered_meta c "last_message_id"))
    (calls (snd (RemoteAgentConnections.consume echo_agent request_with_id true
                   [ Yield (status_event WORKING "a" false);
                     Yield (status_event COMPLETED "b" true) ] w0)))
  = [ (Some (JStr "uuid-0"), Some (JStr "req"));
      (Some (JStr "uuid-1"), Some (JStr "req")) ].
Proof. reflexivity. Qed.

(** ** [send_task] as a whole *)

(** The dump of a [TaskSendParams] has no [params] entry, and the request
    classes require one. *)
Lemma model_dump_has_no_params (request : TaskSendParams.t) :
  dict_get (TaskSendParams_model_dump request) "params" = None.
Proof. reflexivity. Qed.

Lemma request_init_requires_params `{Pydantic} (m : Method) (kwargs : dict)
    (w : World) :
  dict_get kwargs "params" = None ->
  exists w',
    JSONRPCRequest.init m kwargs w
    = (Raise (ValidationError (method_literal m)), w')
    /\ calls w' = calls w.
Proof.
  intros Hp. unfold JSONRPCRequest.init, bind. rewrite Hp.
  destruct (dict_get kwargs "id") as [j|]; simpl;
    destruct (JSONRPCRequest.literal_ok "2.0" (dict_get kwargs "jsonrpc")
              && JSONRPCRequest.literal_ok (method_literal m)
                   (dict_get kwargs "method"));
    try destruct (validate_rpc_id j); eexists; split; reflexivity.
Qed.

Lemma request_init_of_dump `{Pydantic} (m : Method)
    (request : TaskSendParams.t) (w : World) :
  JSONRPCRequest.init m (TaskSendParams_model_dump request) w
  = (Raise (ValidationError (method_literal m)), w).
Proof.
  unfold JSONRPCRequest.init, bind. simpl.
  destruct (validate_rpc_id (JStr (TaskSendParams.id request))); reflexivity.
Qed.

(** C5, through [send_task].  For an agent that advertises streaming,
    [send_task] hands the dump of the request to [send_task_streaming],
    whose first step, the construction of [SendTaskStreamingRequest] from
    it, raises: no connection is opened, and the callback gets the
    synthesized SUBMITTED task and none of the events of the stream. *)
Theorem send_task_streaming_delivers_no_event `{Pydantic}
    (self : RemoteAgentConnections.t) (request : TaskSendParams.t)
    (task_callback : bool) (net : RemoteAgentConnections.network)
    (capabilities : AgentCapabilities.t) (w : World) :
  AgentCard.capabilities (RemoteAgentConnections.card self)
    = Some capabilities ->
  AgentCapabilities.streaming capabilities = true ->
  RemoteAgentConnections.send_task self request task_callback net w
  = (Raise (ValidationError "tasks/sendSubscribe"),
     if task_callback then
       after_call
         {| call_arg :=
              Some (ArgTask (RemoteAgentConnections.submitted request (clock w)));
            call_card := Some (RemoteAgentConnections.card self) |} w
     else w).
Proof.
  intros Hcaps Hstreaming. unfold RemoteAgentConnections.send_task.
  rewrite Hcaps, Hstreaming.
  unfold A2AClient.send_task_streaming.
  destruct task_callback; unfold bind at 1; simpl;
    unfold bind; rewrite request_init_of_dump; reflexivity.
Qed.

Lemma send_task_streaming_delivers_no_event_witness :
  AgentCard.capabilities (RemoteAgentConnections.card echo_agent)
    = Some (AgentCapabilities.mk true false false)
  /\ AgentCapabilities.streaming (AgentCapabilities.mk true false false) = true
  /\ @RemoteAgentConnections.send_task plain_pydantic echo_agent request_t1 true
       {| RemoteAgentConnections.post := PostRaises "unused";
          RemoteAgentConnections.stream := three_events |} w0
     = (Raise (ValidationError "tasks/sendSubscribe"),
        after_call
          {| call_arg :=
               Some (ArgTask (RemoteAgentConnections.submitted request_t1
                                (clock w0)));
             call_card := Some (RemoteAgentConnections.card echo_agent) |} w0).
Proof.
  split; [reflexivity|]. split; [reflexivity|].
  exact (@send_task_streaming_delivers_no_event plain_pydantic echo_agent
           request_t1 true _ (AgentCapabilities.mk true false false) w0
           eq_refl eq_refl).
Defined.

(** The unary branch stops at the same place: no POST is made. *)
Lemma send_task_unary_makes_no_post `{Pydantic}
    (self : RemoteAgentConnections.t) (request : TaskSendParams.t)
    (task_callback : bool) (net : RemoteAgentConnections.network)
    (capabilities : AgentCapabilities.t) (w : World) :
  AgentCard.capabilities (RemoteAgentConnections.card self)
    = Some capabilities ->
  AgentCapabilities.streaming capabilities = false ->
  RemoteAgentConnections.send_task self request task_callback net w
  = (Raise (ValidationError "tasks/send"), w).
Proof.
  intros Hcaps Hstreaming. unfold RemoteAgentConnections.send_task.
  rewrite Hcaps, Hstreaming.
  unfold A2AClient.send_task, A2AClient.unary, bind.
  rewrite request_init_of_dump. reflexivity.
Qed.

(** The streaming client on its own, given a payload that does have a
    [params] entry: the generator yields every event of the stream, those
    after the final one too, and the loop of [send_task] over its items
    calls back for the first two. *)
Example streaming_client_with_params :
  match @A2AClient.send_task_streaming plain_pydantic
          (A2AClient.mk "http://localhost:10000")
          [("params", JObj (TaskSendParams_model_dump request_t1))]
          three_events w0 with
  | (Ok items, w1) =>
      (length items,
       length (calls (snd (RemoteAgentConnections.consume echo_agent
                             request_t1 true items w1))))
  | (Raise _, _) => (0, 0)
  end
  = (3, 2).
Proof. reflexivity. Qed.

(** The generator does not stop at a final event. *)
Lemma iter_sse_yields_all `{Pydantic} (events : list sse)
    (responses : list SendTaskStreamingResponse) :
  Forall2 (fun e r => A2AClient.decode_sse e = Yield r) events responses ->
  A2AClient.iter_sse events = map Yield responses.
Proof.
  induction 1 as [|e r events responses He _ IH]; simpl; [reflexivity|].
  now rewrite He, IH.
Qed.

(** ** Push-notification authentication *)

Lemma substring_all (s : string) : String.substring 0 (String.length s) s = s.
Proof. induction s as [|a s IH]; simpl; [reflexivity|now rewrite IH]. Qed.

Lemma after_prefix_bearer (token : string) :
  PushNotificationReceiverAuth.after_prefix (AUTH_HEADER_PREFIX ++ token)
  = token.
Proof.
  unfold PushNotificationReceiverAuth.after_prefix, AUTH_HEADER_PREFIX. simpl.
  rewrite Nat.sub_0_r. apply substring_all.
Qed.

Lemma prefix_bearer (token : string) :
  String.prefix AUTH_HEADER_PREFIX (AUTH_HEADER_PREFIX ++ token) = true.
Proof. unfold AUTH_HEADER_PREFIX. simpl. now destruct token. Qed.

Lemma too_old_false (now : Q) (iat : Z) :
  (now - inject_Z iat <= 300)%Q ->
  PushNotificationReceiverAuth.too_old now iat = false.
Proof.
  intros Hle. unfold PushNotificationReceiverAuth.too_old.
  change (inject_Z (60 * 5)) with 300%Q.
  apply Qle_bool_iff in Hle. now rewrite Hle.
Qed.

Lemma too_old_true (now : Q) (iat : Z) :
  (300 < now - inject_Z iat)%Q ->
  PushNotificationReceiverAuth.too_old now iat = true.
Proof.
  intros Hlt. unfold PushNotificationReceiverAuth.too_old.
  change (inject_Z (60 * 5)) with 300%Q.
  destruct (Qle_bool (now - inject_Z iat) 300) eqn:Hb; [|reflexivity].
  apply Qle_bool_iff in Hb. exfalso. exact (Qlt_not_le _ _ Hlt Hb).
Qed.

Lemma differs_iff (actual digest : string) :
  PushNotificationReceiverAuth.differs actual (JStr digest) = true
  <-> actual <> digest.
Proof.
  simpl. destruct (String.eqb_spec actual digest); simpl; split;
    congruence.
Qed.

(** The steps of [verify_push_notification] up to the comparison of the
    digests, for a request the sender made. *)
Lemma verify_signed `{JWTLibrary} (receiver : PushNotificationReceiverAuth.t)
    (client : PyJWKClient) (public : signing_key) (token : string)
    (claims : dict) (data : json) (now : Q) :
  PushNotificationReceiverAuth.jwks_client receiver = Some client ->
  get_signing_key_from_jwt client token = Ok public ->
  jwt_decode token public ["RS256"] ["iat"; "request_body_sha256"] now
    = Ok claims ->
  PushNotificationReceiverAuth.verify_push_notification receiver
    {| authorization := Some (AUTH_HEADER_PREFIX ++ token); body := Some data |}
    now
  = match dict_get claims "request_body_sha256" with
    | None => Raise (KeyError "request_body_sha256")
    | Some claim =>
        if PushNotificationReceiverAuth.differs
             (PushNotificationAuth._calculate_request_body_sha256 data) claim
        then Raise (ValueError "Invalid request body")
        else
          match dict_get claims "iat" with
          | None => Raise (KeyError "iat")
          | Some (JInt iat) =>
              if PushNotificationReceiverAuth.too_old now iat then
                Raise (ValueError "Token expired")
              else Ok true
          | Some (JBool b) =>
              if PushNotificationReceiverAuth.too_old now (if b then 1 else 0)
              then Raise (ValueError "Token expired")
              else Ok true
          | Some _ => Raise (TypeError "unsupported operand")
          end
    end.
Proof.
  intros Hclient Hkey Hdecode.
  unfold PushNotificationReceiverAuth.verify_push_notification.
  cbn [authorization body].
  rewrite after_prefix_bearer, Hclient.
  rewrite prefix_bearer.
  change (String.eqb (AUTH_HEADER_PREFIX ++ token) "") with false.
  cbn [negb andb].
  rewrite Hkey. cbn [res_bind]. rewrite Hdecode. reflexivity.
Qed.




(** In the reference library the request of the witness verifies at 1200 and
    the tampered body is refused. *)
Example push_notification_fresh :
  res_bind
    (@PushNotificationSenderAuth.send_push_notification clear_jwt sender_k1
       "http://client/notify" body_done 1000)
    (fun request =>
       @PushNotificationReceiverAuth.verify_push_notification clear_jwt
         receiver_k1 request 1200)
  = Ok true.
Proof. reflexivity. Qed.

Example push_notification_tampered :
  res_bind
    (@PushNotificationSenderAuth.send_push_notification clear_jwt sender_k1
       "http://client/notify" body_done 1000)
    (fun request =>
       @PushNotificationReceiverAuth.verify_push_notification clear_jwt
         receiver_k1 (with_body request (JObj body_tampered)) 1200)
  = Raise (ValueError "Invalid request body").
Proof. reflexivity. Qed.

(** The serialization on small inputs: no blanks, and the escapes of the
    control characters, the quote and the backslash. *)
Example json_dumps_compact :
  json_dumps (JObj [("b", JArr [JInt 1; JNull; JBool true; JInt (-3)]);
                    ("c", JObj [])])
  = "{" ++ quoted "b" ++ ":[1,null,true,-3]," ++ quoted "c" ++ ":{}}".
Proof. reflexivity. Qed.

Example escape_specials :
  escape (chr 10 ++ chr 31 ++ chr 34 ++ chr 92 ++ chr 127)
  = chr 92 ++ "n" ++ chr 92 ++ "u001f" ++ chr 92 ++ chr 34
    ++ chr 92 ++ chr 92 ++ chr 127.
Proof. reflexivity. Qed.

(** The serialization keeps the order of insertion: two dictionaries with
    the same entries in another order have different texts. *)
Example json_dumps_insertion_order :
  json_dumps (JObj [("a", JInt 1); ("b", JInt 2)]) <>
  json_dumps (JObj [("b", JInt 2); ("a", JInt 1)]).
Proof. discriminate. Qed.

(** * Further properties *)

(** ** The cache: runs, composition and the shared instance *)



(** X2.  A [set] without [ttl] makes the entry permanent: whatever deadline
    the key had before, a [get] at any later or earlier time returns the
    value and leaves the cache as it is. *)
Theorem cache_set_without_ttl_is_permanent (c : InMemoryCache.t)
    (k : string) (v default : json) (t0 t : Q) :
  InMemoryCache.get (InMemoryCache.set c k v None t0) k default t
  = (Ok v, InMemoryCache.set c k v None t0).
Proof.
  unfold InMemoryCache.get, InMemoryCache.set. simpl.
  now rewrite lookup_delete_eq, lookup_insert_eq.
Qed.


(** X4.  [delete] answers whether the key was stored; afterwards a [get] of
    the key returns the default at any time, and a second [delete] answers
    [False]. *)
Theorem cache_delete_removes (c : InMemoryCache.t) (k : string) :
  cache_consistent c ->
  fst (InMemoryCache.delete c k) = cache_contains c k
  /\ (forall default t,
        InMemoryCache.get (snd (InMemoryCache.delete c k)) k default t
        = (Ok default, snd (InMemoryCache.delete c k)))
  /\ fst (InMemoryCache.delete (snd (InMemoryCache.delete c k)) k) = false.
Proof.
  intros Hc. unfold InMemoryCache.delete, cache_contains.
  destruct (InMemoryCache._cache_data c !! k) as [v|] eqn:Hk; simpl.
  - split; [reflexivity|]. split.
    + intros default t. unfold InMemoryCache.get. simpl.
      now rewrite !lookup_delete_eq.
    + now rewrite lookup_delete_eq.
  - assert (Httl : InMemoryCache._ttl c !! k = None).
    { destruct (InMemoryCache._ttl c !! k) eqn:Ht; [|reflexivity].
      destruct (Hc k) as [x Hx]; [eauto|]. congruence. }
    split; [reflexivity|]. split.
    + intros default t. unfold InMemoryCache.get. now rewrite Httl, Hk.
    + now rewrite Hk.
Qed.

Lemma cache_delete_removes_witness :
  cache_consistent
    (InMemoryCache.set InMemoryCache.init "k" (JStr "v") (Some 1%Z) 100)
  /\ fst (InMemoryCache.delete
           (InMemoryCache.set InMemoryCache.init "k" (JStr "v") (Some 1%Z) 100)
           "k")
     = cache_contains
         (InMemoryCache.set InMemoryCache.init "k" (JStr "v") (Some 1%Z) 100)
         "k"
  /\ (forall default t,
        InMemoryCache.get
          (snd (InMemoryCache.delete
                  (InMemoryCache.set InMemoryCache.init "k" (JStr "v")
                     (Some 1%Z) 100) "k")) "k" default t
        = (Ok default,
           snd (InMemoryCache.delete
                  (InMemoryCache.set InMemoryCache.init "k" (JStr "v")
                     (Some 1%Z) 100) "k")))
  /\ fst (InMemoryCache.delete
           (snd (InMemoryCache.delete
                   (InMemoryCache.set InMemoryCache.init "k" (JStr "v")
                      (Some 1%Z) 100) "k")) "k")
     = false.
Proof.
  assert (Hc : cache_consistent
                 (InMemoryCache.set InMemoryCache.init "k" (JStr "v")
                    (Some 1%Z) 100)).
  { apply cache_consistent_set, cache_consistent_init. }
  split; [exact Hc|].
  exact (cache_delete_removes _ "k" Hc).
Defined.

(** X5.  Operations on one key leave every other key alone: a [get] of
    [k'], also one that evicts [k'], changes neither the value nor the
    deadline of [k], and after a [set] or a [delete] of [k] a [get] of [k']
    returns what it returned before.  In particular an entry past its
    deadline stays in the cache until a [get] of that very key. *)
Theorem cache_keys_are_independent (c : InMemoryCache.t) (k k' : string) :
  k <> k' ->
  (forall default t,
      InMemoryCache._cache_data (snd (InMemoryCache.get c k' default t)) !! k
        = InMemoryCache._cache_data c !! k
      /\ InMemoryCache._ttl (snd (InMemoryCache.get c k' default t)) !! k
         = InMemoryCache._ttl c !! k)
  /\ (forall v ttl t0 default t,
        fst (InMemoryCache.get (InMemoryCache.set c k v ttl t0) k' default t)
        = fst (InMemoryCache.get c k' default t))
  /\ (forall default t,
        fst (InMemoryCache.get (snd (InMemoryCache.delete c k)) k' default t)
        = fst (InMemoryCache.get c k' default t)).
Proof.
  intros Hne. assert (Hne' : k' <> k) by congruence.
  split; [|split].
  - intros default t. unfold InMemoryCache.get.
    destruct (InMemoryCache._ttl c !! k') as [deadline|]; [|now split].
    destruct (InMemoryCache.expired t deadline); [|now split].
    destruct (InMemoryCache._cache_data c !! k'); [|now split].
    simpl. now rewrite !lookup_delete_ne.
  - intros v ttl t0 default t.
    unfold InMemoryCache.get, InMemoryCache.set.
    destruct ttl as [n|]; simpl;
      rewrite ?lookup_insert_ne, ?lookup_delete_ne by exact Hne;
      destruct (InMemoryCache._ttl c !! k') as [deadline|]; try reflexivity;
      destruct (InMemoryCache.expired t deadline); try reflexivity;
      destruct (InMemoryCache._cache_data c !! k'); reflexivity.
  - intros default t. unfold InMemoryCache.get, InMemoryCache.delete.
    destruct (InMemoryCache._cache_data c !! k) as [x|]; [|reflexivity].
    simpl. rewrite !lookup_delete_ne by exact Hne.
    destruct (InMemoryCache._ttl c !! k') as [deadline|]; try reflexivity.
    destruct (InMemoryCache.expired t deadline); try reflexivity.
    destruct (InMemoryCache._cache_data c !! k'); reflexivity.
Qed.

Lemma cache_keys_are_independent_witness :
  "a" <> "b"
  /\ (forall default t,
        InMemoryCache._cache_data
          (snd (InMemoryCache.get InMemoryCache.init "b" default t)) !! "a"
          = InMemoryCache._cache_data InMemoryCache.init !! "a"
        /\ InMemoryCache._ttl
             (snd (InMemoryCache.get InMemoryCache.init "b" default t)) !! "a"
           = InMemoryCache._ttl InMemoryCache.init !! "a")
  /\ (forall v ttl t0 default t,
        fst (InMemoryCache.get (InMemoryCache.set InMemoryCache.init "a" v ttl t0)
               "b" default t)
        = fst (InMemoryCache.get InMemoryCache.init "b" default t))
  /\ (forall default t,
        fst (InMemoryCache.get
               (snd (InMemoryCache.delete InMemoryCache.init "a")) "b" default t)
        = fst (InMemoryCache.get InMemoryCache.init "b" default t)).
Proof.
  assert (Hne : "a" <> "b") by discriminate.
  split; [exact Hne|].
  exact (cache_keys_are_independent InMemoryCache.init "a" "b" Hne).
Defined.


(** ** The loop of [send_task], further *)

Lemma consume_stops_at_final_witness :
  Forall (fun r => RemoteAgentConnections.is_final (JSONRPCResponse.result r)
                   = false) [status_event WORKING "a" false]
  /\ RemoteAgentConnections.is_final
       (JSONRPCResponse.result (status_event COMPLETED "b" true)) = true
  /\ exists (cs : list Call) (w' : World),
       RemoteAgentConnections.consume echo_agent request_t1 true
         (map Yield [status_event WORKING "a" false]
          ++ Yield (status_event COMPLETED "b" true)
             :: [Yield (status_event WORKING "c" false);
                 Throw (ValueError "never reached")]) w0
       = (Ok tt, w')
       /\ calls w' = (calls w0 ++ cs)%list
       /\ Forall2 (call_for echo_agent request_t1)
            ([status_event WORKING "a" false]
             ++ [status_event COMPLETED "b" true]) cs.
Proof.
  assert (Hbefore : Forall
            (fun r => RemoteAgentConnections.is_final (JSONRPCResponse.result r)
                      = false) [status_event WORKING "a" false]).
  { repeat constructor. }
  split; [exact Hbefore|]. split; [reflexivity|].
  exact (consume_stops_at_final echo_agent request_t1
           [status_event WORKING "a" false] (status_event COMPLETED "b" true)
           [Yield (status_event WORKING "c" false);
            Throw (ValueError "never reached")] w0 Hbefore eq_refl).
Defined.

Lemma consume_all_not_final (self : RemoteAgentConnections.t)
    (request : TaskSendParams.t) (task_callback : bool)
    (before : list SendTaskStreamingResponse)
    (tail : list (item SendTaskStreamingResponse)) (w : World) :
  Forall (fun r => RemoteAgentConnections.is_final (JSONRPCResponse.result r)
                   = false) before ->
  RemoteAgentConnections.consume self request task_callback
    (map Yield before ++ tail) w
  = match deliver_each self request task_callback before w with
    | (Ok _, w1) =>
        RemoteAgentConnections.consume self request task_callback tail w1
    | (Raise e, w1) => (Raise e, w1)
    end.
Proof.
  intros Hbefore. revert w.
  induction Hbefore as [|r before Hr Hbefore IH]; intros w.
  - reflexivity.
  - cbn [map app]. rewrite consume_step, deliver_each_step.
    destruct (prepare_total request (JSONRPCResponse.result r) w)
      as (result & w1 & -> & Hfinal & _).
    rewrite Hfinal, Hr. apply IH.
Qed.

(** X8.  When the stream ends before any final event, every response that
    was yielded is handed to the callback, once and in order; the call then
    returns normally if the connection was closed, and raises the
    generator's exception if the stream failed (a malformed event, a broken
    connection), without looking at what follows. *)
Theorem consume_without_final (self : RemoteAgentConnections.t)
    (request : TaskSendParams.t) (before : list SendTaskStreamingResponse)
    (e : exn) (rest : list (item SendTaskStreamingResponse)) (w : World) :
  Forall (fun r => RemoteAgentConnections.is_final (JSONRPCResponse.result r)
                   = false) before ->
  exists (cs : list Call) (w' : World),
    RemoteAgentConnections.consume self request true (map Yield before) w
      = (Ok tt, w')
    /\ RemoteAgentConnections.consume self request true
         (map Yield before ++ Throw e :: rest) w
       = (Raise e, w')
    /\ calls w' = (calls w ++ cs)%list
    /\ Forall2 (call_for self request) before cs.
Proof.
  intros Hbefore.
  destruct (deliver_each_calls self request before w)
    as (cs & w' & Hrun & Hlog & Hall).
  exists cs, w'. repeat split; [| |exact Hlog|exact Hall].
  - rewrite <- (app_nil_r (map Yield before)).
    rewrite (consume_all_not_final self request true before [] w Hbefore).
    now rewrite Hrun.
  - rewrite (consume_all_not_final self request true before _ w Hbefore).
    now rewrite Hrun.
Qed.

Lemma consume_without_final_witness :
  Forall (fun r => RemoteAgentConnections.is_final (JSONRPCResponse.result r)
                   = false)
    [status_event WORKING "a" false; status_event WORKING "b" false]
  /\ exists (cs : list Call) (w' : World),
       RemoteAgentConnections.consume echo_agent request_t1 true
         (map Yield [status_event WORKING "a" false;
                     status_event WORKING "b" false]) w0
         = (Ok tt, w')
       /\ RemoteAgentConnections.consume echo_agent request_t1 true
            (map Yield [status_event WORKING "a" false;
                        status_event WORKING "b" false]
             ++ Throw (A2AClientJSONError "Expecting value")
                :: [Yield (status_event COMPLETED "c" true)]) w0
          = (Raise (A2AClientJSONError "Expecting value"), w')
       /\ calls w' = (calls w0 ++ cs)%list
       /\ Forall2 (call_for echo_agent request_t1)
            [status_event WORKING "a" false; status_event WORKING "b" false] cs.
Proof.
  assert (Hbefore : Forall
            (fun r => RemoteAgentConnections.is_final (JSONRPCResponse.result r)
                      = false)
            [status_event WORKING "a" false; status_event WORKING "b" false]).
  { repeat constructor. }
  split; [exact Hbefore|].
  exact (consume_without_final echo_agent request_t1
           [status_event WORKING "a" false; status_event WORKING "b" false]
           (A2AClientJSONError "Expecting value")
           [Yield (status_event COMPLETED "c" true)] w0 Hbefore).
Defined.

(** X9.  Without a callback the loop calls nothing: whatever the generator
    yields or raises, the record of callback calls is what it was. *)
Theorem consume_without_callback_is_silent (self : RemoteAgentConnections.t)
    (request : TaskSendParams.t)
    (items : list (item SendTaskStreamingResponse)) (w : World) :
  calls (snd (RemoteAgentConnections.consume self request false items w))
  = calls w.
Proof.
  revert w. induction items as [|[response|e] items IH]; intros w;
    [reflexivity| |reflexivity].
  rewrite consume_step.
  destruct (prepare_total request (JSONRPCResponse.result response) w)
    as (result & w1 & -> & _ & Hcalls).
  unfold callback_world.
  destruct (RemoteAgentConnections.is_final result); simpl;
    [exact Hcalls|]. now rewrite IH.
Qed.

(** X10.  A response that carries an artifact update, or no result at all,
    never ends the loop and gets no message id: no UUID is drawn, the
    artifact is untouched, and the callback is called with the update, or
    with [None] for a response without result. *)
Theorem consume_passes_artifacts_and_empty_results
    (self : RemoteAgentConnections.t) (request : TaskSendParams.t)
    (response : SendTaskStreamingResponse)
    (rest : list (item SendTaskStreamingResponse)) (w : World) :
  (forall e, JSONRPCResponse.result response = Some (ArtifactUpdate e) ->
     exists e',
       TaskArtifactUpdateEvent.artifact e' = TaskArtifactUpdateEvent.artifact e
       /\ TaskArtifactUpdateEvent.id e' = TaskArtifactUpdateEvent.id e
       /\ RemoteAgentConnections.consume self request true
            (Yield response :: rest) w
          = RemoteAgentConnections.consume self request true rest
              (after_call {| call_arg := Some (ArgArtifact e');
                             call_card := Some (RemoteAgentConnections.card self) |}
                 w))
  /\ (JSONRPCResponse.result response = None ->
      RemoteAgentConnections.consume self request true (Yield response :: rest) w
      = RemoteAgentConnections.consume self request true rest
          (after_call {| call_arg := None;
                         call_card := Some (RemoteAgentConnections.card self) |}
             w)).
Proof.
  split.
  - intros e He. rewrite consume_step, He.
    unfold RemoteAgentConnections.prepare, merge_metadata.
    destruct (truthy_dict (get_meta_data (ArtifactUpdate e))
              && truthy_dict (get_meta_data request));
      [|destruct (truthy_dict (get_meta_data request))];
      simpl; eexists; (split; [|split; [|reflexivity]]); reflexivity.
  - intros He. rewrite consume_step, He. reflexivity.
Qed.

(** X11.  On a status message the id chain touches two keys only: the
    message gets the drawn UUID as [message_id]; [last_message_id] is set
    only when there was a [message_id] and is kept otherwise; every other
    metadata key, the role and the parts are as they were. *)
Theorem assign_message_id_changes_two_keys (m : Message.t) (w : World) :
  exists m',
    assign_message_id m w = (Ok m', after_draw w)
    /\ Message.role m' = Message.role m
    /\ Message.parts m' = Message.parts m
    /\ meta_lookup m' "message_id"
       = Some (JStr (uuid_str (entropy w (drawn w))))
    /\ meta_lookup m' "last_message_id"
       = match meta_lookup m "message_id" with
         | Some v => Some v
         | None => meta_lookup m "last_message_id"
         end
    /\ (forall k, k <> "message_id" -> k <> "last_message_id" ->
                  meta_lookup m' k = meta_lookup m k).
Proof.
  unfold assign_message_id, bind, uuid4, ret, meta_lookup.
  eexists. split; [reflexivity|]. simpl.
  assert (Hmd : forall k,
             dict_get (if truthy_dict (Message.meta_data m)
                       then default [] (Message.meta_data m) else []) k
             = dict_get (default [] (Message.meta_data m)) k).
  { intros k. now destruct (Message.meta_data m) as [[|kv d]|]. }
  repeat split.
  - apply dict_get_set_eq.
  - rewrite dict_get_set_ne by discriminate. rewrite Hmd.
    destruct (dict_get (default [] (Message.meta_data m)) "message_id") as [v|].
    + apply dict_get_set_eq.
    + apply Hmd.
  - intros k Hk1 Hk2. rewrite dict_get_set_ne by congruence. rewrite Hmd.
    destruct (dict_get (default [] (Message.meta_data m)) "message_id") as [v|].
    + rewrite dict_get_set_ne by congruence. apply Hmd.
    + apply Hmd.
Qed.

(** ** [merge_metadata], further *)

Lemma dict_set_same (d : dict) (k : string) (v : json) :
  dict_get d k = Some v -> dict_set d k v = d.
Proof.
  induction d as [|[k' v'] d IH]; simpl; [discriminate|].
  destruct (String.eqb_spec k' k) as [->|Hne].
  - intros [= ->]. reflexivity.
  - intros Hget. now rewrite IH.
Qed.

Lemma dict_set_fresh (d : dict) (k : string) (v : json) :
  dict_get d k = None -> dict_set d k v = (d ++ [(k, v)])%list.
Proof.
  induction d as [|[k' v'] d IH]; simpl; [reflexivity|].
  destruct (String.eqb_spec k' k) as [->|Hne]; [discriminate|].
  intros Hget. now rewrite IH.
Qed.

Lemma dict_get_In (s : dict) (k : string) (v : json) :
  distinct_keys s -> In (k, v) s -> dict_get s k = Some v.
Proof.
  unfold distinct_keys.
  induction s as [|[k' v'] s IH]; simpl; intros Hnd Hin; [contradiction|].
  apply NoDup_cons in Hnd as [Hfresh Hnd].
  destruct Hin as [[= -> ->]|Hin].
  - now rewrite String.eqb_refl.
  - destruct (String.eqb_spec k' k) as [->|Hne]; [|now apply IH].
    exfalso. apply Hfresh. apply list_elem_of_In.
    change k with (fst (k, v)). now apply in_map.
Qed.

Lemma dict_update_fixed (l d : dict) :
  (forall k v, In (k, v) l -> dict_get d k = Some v) -> dict_update d l = d.
Proof.
  unfold dict_update. induction l as [|[k v] l IH]; simpl; intros Hall.
  - reflexivity.
  - rewrite dict_set_same by (apply Hall; now left).
    apply IH. intros k' v' Hin. apply Hall. now right.
Qed.

Lemma dict_update_idem (d s : dict) :
  distinct_keys s -> dict_update (dict_update d s) s = dict_update d s.
Proof.
  intros Hnd. apply dict_update_fixed. intros k v Hin.
  rewrite dict_get_update by exact Hnd.
  now rewrite (dict_get_In s k v Hnd Hin).
Qed.

Lemma dict_set_nonempty (d : dict) (k : string) (v : json) :
  truthy_dict (Some (dict_set d k v)) = true.
Proof.
  destruct d as [|[k' v'] d]; simpl; [reflexivity|].
  now destruct (String.eqb k' k).
Qed.

Lemma dict_update_truthy (s d : dict) :
  truthy_dict (Some d) = true -> truthy_dict (Some (dict_update d s)) = true.
Proof.
  unfold dict_update. revert d.
  induction s as [|[k v] s IH]; simpl; intros d Hd; [exact Hd|].
  apply IH, dict_set_nonempty.
Qed.

Lemma dict_update_truthy_source (s d : dict) :
  truthy_dict (Some s) = true -> truthy_dict (Some (dict_update d s)) = true.
Proof.
  destruct s as [|[k v] s]; [discriminate|]. intros _.
  unfold dict_update. simpl. apply (dict_update_truthy s), dict_set_nonempty.
Qed.

Lemma dict_update_append (s d : dict) :
  distinct_keys s ->
  (forall k, In k (keys s) -> dict_get d k = None) ->
  dict_update d s = (d ++ s)%list.
Proof.
  unfold distinct_keys, dict_update, keys. revert d.
  induction s as [|[k v] s IH]; simpl; intros d Hnd Hfresh.
  - now rewrite app_nil_r.
  - apply NoDup_cons in Hnd as [Hk Hnd].
    rewrite dict_set_fresh by (apply Hfresh; now left).
    rewrite IH; [now rewrite <- app_assoc|exact Hnd|].
    intros k' Hin.
    assert (Hne : k <> k').
    { intros ->. apply Hk. now apply list_elem_of_In. }
    rewrite <- (dict_set_fresh d k v) by (apply Hfresh; now left).
    rewrite dict_get_set_ne by exact Hne. apply Hfresh. now right.
Qed.

Lemma dict_copy_id (s : dict) : distinct_keys s -> dict_copy s = s.
Proof.
  intros Hnd. unfold dict_copy. now rewrite dict_update_append.
Qed.

Lemma keys_dict_set (d : dict) (k : string) (v : json) :
  keys (dict_set d k v)
  = if dict_mem d k then keys d else (keys d ++ [k])%list.
Proof.
  unfold keys, dict_mem.
  induction d as [|[k' v'] d IH]; simpl; [reflexivity|].
  destruct (String.eqb_spec k' k) as [->|Hne]; simpl; [reflexivity|].
  rewrite IH. now destruct (dict_get d k).
Qed.

Lemma dict_mem_set (d : dict) (k k' : string) (v : json) :
  dict_mem (dict_set d k v) k' = dict_mem d k' || String.eqb k k'.
Proof.
  unfold dict_mem. destruct (String.eqb_spec k k') as [->|Hne].
  - rewrite dict_get_set_eq. now rewrite orb_true_r.
  - rewrite dict_get_set_ne by exact Hne. now rewrite orb_false_r.
Qed.

(** The keys after [d.update(s)]: those of [d], where they were, then the
    new ones in the order of [s]. *)
Lemma keys_dict_update (s d : dict) :
  distinct_keys s ->
  keys (dict_update d s)
  = (keys d ++ List.filter (fun k => negb (dict_mem d k)) (keys s))%list.
Proof.
  unfold distinct_keys, dict_update. revert d.
  induction s as [|[k v] s IH]; intros d Hnd; simpl.
  - now rewrite app_nil_r.
  - apply NoDup_cons in Hnd as [Hk Hnd].
    rewrite (IH _ Hnd), keys_dict_set.
    assert (Hfilter :
      List.filter (fun k' => negb (dict_mem (dict_set d k v) k')) (keys s)
      = List.filter (fun k' => negb (dict_mem d k')) (keys s)).
    { apply filter_ext_in. intros k' Hin. rewrite dict_mem_set.
      destruct (String.eqb_spec k k') as [->|Hne]; [|now rewrite orb_false_r].
      exfalso. apply Hk. now apply list_elem_of_In. }
    rewrite Hfilter. destruct (dict_mem d k); simpl; [reflexivity|].
    now rewrite <- app_assoc.
Qed.

(** X12.  Merging the same request metadata a second time changes nothing:
    the metadata of the target after two merges is its metadata after one. *)
Theorem merge_metadata_is_idempotent {T S} `{LawfulMetaData T} `{HasMetaData S}
    (t : T) (s : S) :
  distinct_keys (default [] (get_meta_data s)) ->
  exists t' t'' : T,
    merge_metadata (Some t) (Some s) = Some t'
    /\ merge_metadata (Some t') (Some s) = Some t''
    /\ get_meta_data t'' = get_meta_data t'.
Proof.
  intros Hnd. unfold merge_metadata.
  destruct (truthy_dict (get_meta_data s)) eqn:Hs.
  - assert (Hsm : truthy_dict (Some (default [] (get_meta_data s))) = true).
    { now destruct (get_meta_data s) as [[|kv d]|]. }
    destruct (truthy_dict (get_meta_data t)) eqn:Ht; simpl.
    + do 2 eexists. split; [reflexivity|].
      rewrite get_set_meta_data.
      rewrite (dict_update_truthy_source _ _ Hsm). simpl.
      split; [reflexivity|].
      now rewrite get_set_meta_data, dict_update_idem.
    + do 2 eexists. split; [reflexivity|].
      rewrite get_set_meta_data. unfold dict_copy.
      rewrite (dict_update_truthy_source _ _ Hsm). simpl.
      split; [reflexivity|].
      now rewrite get_set_meta_data, dict_update_idem.
  - rewrite andb_false_r. exists t. eexists. split; [reflexivity|].
    rewrite andb_false_r. split; reflexivity.
Qed.

Lemma merge_metadata_is_idempotent_witness :
  distinct_keys (default [] (get_meta_data note_source))
  /\ exists t' t'' : Message.t,
       merge_metadata (Some note_target) (Some note_source) = Some t'
       /\ merge_metadata (Some t') (Some note_source) = Some t''
       /\ get_meta_data t'' = get_meta_data t'.
Proof.
  assert (Hnd : distinct_keys (default [] (get_meta_data note_source))).
  { unfold distinct_keys. simpl.
    repeat (apply NoDup_cons; split); try apply NoDup_nil_2;
      intros Hin; apply list_elem_of_In in Hin; simpl in Hin;
      intuition discriminate. }
  split; [exact Hnd|].
  exact (merge_metadata_is_idempotent note_target note_source Hnd).
Defined.

(** X13.  The merge keeps the order of the target's metadata: its keys stay
    where they were and the keys only the request has follow, in the
    request's order.  A target without metadata, or with an empty one, gets
    a dictionary equal to the request's. *)
Theorem merge_metadata_keeps_order {T S} `{LawfulMetaData T} `{HasMetaData S}
    (t : T) (s : S) :
  distinct_keys (default [] (get_meta_data s)) ->
  exists t' : T,
    merge_metadata (Some t) (Some s) = Some t'
    /\ keys (default [] (get_meta_data t'))
       = (keys (default [] (get_meta_data t))
          ++ List.filter
               (fun k => negb (dict_mem (default [] (get_meta_data t)) k))
               (keys (default [] (get_meta_data s))))%list
    /\ (truthy_dict (get_meta_data t) = false ->
        truthy_dict (get_meta_data s) = true ->
        get_meta_data t' = get_meta_data s).
Proof.
  intros Hnd. unfold merge_metadata.
  destruct (truthy_dict (get_meta_data s)) eqn:Hs.
  - destruct (truthy_dict (get_meta_data t)) eqn:Ht; simpl.
    + eexists. split; [reflexivity|]. rewrite get_set_meta_data. simpl.
      split; [now apply keys_dict_update|discriminate].
    + eexists. split; [reflexivity|]. rewrite get_set_meta_data. simpl.
      assert (Htm : default [] (get_meta_data t) = []).
      { now destruct (get_meta_data t) as [[|kv d]|]. }
      rewrite Htm. split.
      * unfold dict_copy. now rewrite keys_dict_update.
      * intros _ _. rewrite dict_copy_id by exact Hnd.
        now destruct (get_meta_data s) as [[|kv d]|].
  - rewrite andb_false_r. eexists. split; [reflexivity|].
    assert (Hsm : default [] (get_meta_data s) = []).
    { now destruct (get_meta_data s) as [[|kv d]|]. }
    rewrite Hsm. simpl. rewrite app_nil_r. split; [reflexivity|discriminate].
Qed.

Lemma merge_metadata_keeps_order_witness :
  distinct_keys (default [] (get_meta_data note_source))
  /\ exists t' : Message.t,
       merge_metadata (Some note_target) (Some note_source) = Some t'
       /\ keys (default [] (get_meta_data t'))
          = (keys (default [] (get_meta_data note_target))
             ++ List.filter
                  (fun k =>
                     negb (dict_mem (default [] (get_meta_data note_target)) k))
                  (keys (default [] (get_meta_data note_source))))%list
       /\ (truthy_dict (get_meta_data note_target) = false ->
           truthy_dict (get_meta_data note_source) = true ->
           get_meta_data t' = get_meta_data note_source).
Proof.
  assert (Hnd : distinct_keys (default [] (get_meta_data note_source))).
  { unfold distinct_keys. simpl.
    repeat (apply NoDup_cons; split); try apply NoDup_nil_2;
      intros Hin; apply list_elem_of_In in Hin; simpl in Hin;
      intuition discriminate. }
  split; [exact Hnd|].
  exact (merge_metadata_keeps_order note_target note_source Hnd).
Defined.

(** ** The client, further *)

(** X14.  For each of the five unary operations: when the request can be
    built from the payload and the server answers with a status outside
    200..299, the operation raises [A2AClientHTTPError] with that status
    code, whatever the body of the answer. *)
Theorem unary_operations_bad_status `{Pydantic} (self : A2AClient.t)
    (payload : dict) (r : HttpResponse) (w : World) :
  A2AClient.is_success r = false ->
  (forall request w',
      JSONRPCRequest.init tasks_send payload w = (Ok request, w') ->
      A2AClient.send_task self payload (PostReturns r) w
      = (Raise (A2AClientHTTPError (status_code r) "status"), w'))
  /\ (forall request w',
        JSONRPCRequest.init tasks_get payload w = (Ok request, w') ->
        A2AClient.get_task self payload (PostReturns r) w
        = (Raise (A2AClientHTTPError (status_code r) "status"), w'))
  /\ (forall request w',
        JSONRPCRequest.init tasks_cancel payload w = (Ok request, w') ->
        A2AClient.cancel_task self payload (PostReturns r) w
        = (Raise (A2AClientHTTPError (status_code r) "status"), w'))
  /\ (forall request w',
        JSONRPCRequest.init tasks_setPushNotification_set payload w
          = (Ok request, w') ->
        A2AClient.set_task_callback self payload (PostReturns r) w
        = (Raise (A2AClientHTTPError (status_code r) "status"), w'))
  /\ (forall request w',
        JSONRPCRequest.init tasks_pushNotification_get payload w
          = (Ok request, w') ->
        A2AClient.get_task_callback self payload (PostReturns r) w
        = (Raise (A2AClientHTTPError (status_code r) "status"), w')).
Proof.
  intros Hs. repeat split; intros request w' Hreq;
    eapply unary_bad_status; eassumption.
Qed.

Lemma unary_operations_bad_status_witness :
  A2AClient.is_success {| status_code := 503; json_body := Some (JObj []) |}
    = false
  /\ @A2AClient.cancel_task plain_pydantic (A2AClient.mk "http://localhost:1")
       [("id", JInt 7); ("params", JObj [("id", JStr "t1")])]
       (PostReturns {| status_code := 503; json_body := Some (JObj []) |}) w0
     = (Raise (A2AClientHTTPError 503 "status"), w0).
Proof.
  split; [reflexivity|].
  exact (proj1 (proj2 (proj2
           (@unary_operations_bad_status plain_pydantic
              (A2AClient.mk "http://localhost:1")
              [("id", JInt 7); ("params", JObj [("id", JStr "t1")])]
              {| status_code := 503; json_body := Some (JObj []) |} w0
              eq_refl)))
           (@JSONRPCRequest.mk tasks_cancel "2.0" (IdInt 7) (TaskIdParams.mk "t1" None)) w0
           eq_refl).
Defined.

(** X15.  A payload without a [params] entry never reaches the network: each
    of the five unary operations and the streaming operation raises a
    validation error when the request is built, the outcome is the same for
    every behaviour of the network, and no callback is called. *)
Theorem operations_require_params `{Pydantic} (self : A2AClient.t)
    (payload : dict) (w : World) :
  dict_get payload "params" = None ->
  exists w' : World,
    calls w' = calls w
    /\ (forall net, A2AClient.send_task self payload net w
                    = (Raise (ValidationError "tasks/send"), w'))
    /\ (forall net, A2AClient.get_task self payload net w
                    = (Raise (ValidationError "tasks/get"), w'))
    /\ (forall net, A2AClient.cancel_task self payload net w
                    = (Raise (ValidationError "tasks/cancel"), w'))
    /\ (forall net, A2AClient.set_task_callback self payload net w
                    = (Raise (ValidationError "tasks/setPushNotification/set"),
                       w'))
    /\ (forall net, A2AClient.get_task_callback self payload net w
                    = (Raise (ValidationError "tasks/pushNotification/get"), w'))
    /\ (forall net, A2AClient.send_task_streaming self payload net w
                    = (Raise (ValidationError "tasks/sendSubscribe"), w')).
Proof.
  intros Hp.
  assert (Hinit : exists w', calls w' = calls w /\ forall m,
             JSONRPCRequest.init m payload w
             = (Raise (ValidationError (method_literal m)), w')).
  { unfold JSONRPCRequest.init, bind. rewrite Hp.
    destruct (dict_get payload "id") as [j|]; simpl.
    - exists w. split; [reflexivity|]. intros m.
      destruct (JSONRPCRequest.literal_ok "2.0" (dict_get payload "jsonrpc")
                && JSONRPCRequest.literal_ok (method_literal m)
                     (dict_get payload "method"));
        destruct (validate_rpc_id j); reflexivity.
    - exists (after_draw w). split; [reflexivity|]. intros m.
      destruct (JSONRPCRequest.literal_ok "2.0" (dict_get payload "jsonrpc")
                && JSONRPCRequest.literal_ok (method_literal m)
                     (dict_get payload "method")); reflexivity. }
  destruct Hinit as (w' & Hcalls & Hinit). exists w'.
  split; [exact Hcalls|].
  repeat split; intros net;
    unfold A2AClient.send_task, A2AClient.get_task, A2AClient.cancel_task,
      A2AClient.set_task_callback, A2AClient.get_task_callback,
      A2AClient.unary, A2AClient.send_task_streaming, bind;
    rewrite Hinit; reflexivity.
Qed.

Lemma operations_require_params_witness :
  dict_get (TaskSendParams_model_dump request_t1) "params" = None
  /\ exists w' : World,
       calls w' = calls w0
       /\ (forall net,
             @A2AClient.send_task plain_pydantic (A2AClient.mk "http://a")
               (TaskSendParams_model_dump request_t1) net w0
             = (Raise (ValidationError "tasks/send"), w'))
       /\ (forall net,
             @A2AClient.get_task plain_pydantic (A2AClient.mk "http://a")
               (TaskSendParams_model_dump request_t1) net w0
             = (Raise (ValidationError "tasks/get"), w'))
       /\ (forall net,
             @A2AClient.cancel_task plain_pydantic (A2AClient.mk "http://a")
               (TaskSendParams_model_dump request_t1) net w0
             = (Raise (ValidationError "tasks/cancel"), w'))
       /\ (forall net,
             @A2AClient.set_task_callback plain_pydantic (A2AClient.mk "http://a")
               (TaskSendParams_model_dump request_t1) net w0
             = (Raise (ValidationError "tasks/setPushNotification/set"), w'))
       /\ (forall net,
             @A2AClient.get_task_callback plain_pydantic (A2AClient.mk "http://a")
               (TaskSendParams_model_dump request_t1) net w0
             = (Raise (ValidationError "tasks/pushNotification/get"), w'))
       /\ (forall net,
             @A2AClient.send_task_streaming plain_pydantic
               (A2AClient.mk "http://a")
               (TaskSendParams_model_dump request_t1) net w0
             = (Raise (ValidationError "tasks/sendSubscribe"), w')).
Proof.
  split; [reflexivity|].
  exact (@operations_require_params plain_pydantic (A2AClient.mk "http://a")
           (TaskSendParams_model_dump request_t1) w0 eq_refl).
Defined.

Lemma iter_sse_app `{Pydantic} (good : list sse)
    (responses : list SendTaskStreamingResponse) (tail : list sse) :
  Forall2 (fun e r => A2AClient.decode_sse e = Yield r) good responses ->
  A2AClient.iter_sse (good ++ tail)
  = (map Yield responses ++ A2AClient.iter_sse tail)%list.
Proof.
  induction 1 as [|e r good responses He _ IH]; simpl; [reflexivity|].
  now rewrite He, IH.
Qed.

(** X16.  The streaming client yields the responses of the events in the
    order received, and does not stop at a final one; at the first event
    whose data is not JSON the sequence ends with [A2AClientJSONError], at a
    failure of the connection with [A2AClientHTTPError] and the code 400,
    and in both cases the later events are not read. *)
Theorem streaming_client_sequence `{Pydantic} (good : list sse)
    (responses : list SendTaskStreamingResponse) (rest : list sse)
    (msg : string) :
  Forall2 (fun e r => A2AClient.decode_sse e = Yield r) good responses ->
  A2AClient.iter_sse good = map Yield responses
  /\ A2AClient.iter_sse (good ++ SseData None :: rest)
     = (map Yield responses
        ++ [Throw (A2AClientJSONError "Expecting value")])%list
  /\ A2AClient.iter_sse (good ++ SseBroken msg :: rest)
     = (map Yield responses ++ [Throw (A2AClientHTTPError 400 msg)])%list.
Proof.
  intros Hgood. split; [now apply iter_sse_yields_all|].
  split; now rewrite (iter_sse_app good responses _ Hgood).
Qed.

Lemma streaming_client_sequence_witness :
  Forall2 (fun e r => @A2AClient.decode_sse plain_pydantic e = Yield r)
    [ SseData (Some (status_json "completed" true));
      SseData (Some (status_json "working" false)) ]
    final_then_working
  /\ @A2AClient.iter_sse plain_pydantic
       [ SseData (Some (status_json "completed" true));
         SseData (Some (status_json "working" false)) ]
     = map Yield final_then_working
  /\ @A2AClient.iter_sse plain_pydantic
       ([ SseData (Some (status_json "completed" true));
          SseData (Some (status_json "working" false)) ]
        ++ SseData None :: [SseData (Some (status_json "working" false))])
     = (map Yield final_then_working
        ++ [Throw (A2AClientJSONError "Expecting value")])%list
  /\ @A2AClient.iter_sse plain_pydantic
       ([ SseData (Some (status_json "completed" true));
          SseData (Some (status_json "working" false)) ]
        ++ SseBroken "reset" :: [SseData (Some (status_json "working" false))])
     = (map Yield final_then_working
        ++ [Throw (A2AClientHTTPError 400 "reset")])%list.
Proof.
  assert (Hgood : Forall2
            (fun e r => @A2AClient.decode_sse plain_pydantic e = Yield r)
            [ SseData (Some (status_json "completed" true));
              SseData (Some (status_json "working" false)) ]
            final_then_working).
  { repeat constructor. }
  split; [exact Hgood|].
  exact (@streaming_client_sequence plain_pydantic _ _
           [SseData (Some (status_json "working" false))] "reset" Hgood).
Defined.

(** ** The request union, further *)

(** X17.  Each of the seven method literals selects its own request class: a
    payload whose [method] is the literal of a class is validated as a
    request of that class and of no other, and the union adds nothing to
    what the construction of that class does. *)
Theorem A2ARequest_dispatches_on_method `{Pydantic} (m : Method)
    (kwargs : dict) (w : World) :
  dict_get kwargs "method" = Some (JStr (method_literal m)) ->
  A2ARequest.validate_python (JObj kwargs) w
  = match JSONRPCRequest.init m kwargs w with
    | (Ok r, w') => (Ok (A2ARequest.Tagged m r), w')
    | (Raise e, w') => (Raise e, w')
    end.
Proof.
  intros Hm. unfold A2ARequest.validate_python.
  rewrite Hm, discriminate_literal. unfold bind.
  now destruct (JSONRPCRequest.init m kwargs w) as [[r|e] w'].
Qed.

Lemma A2ARequest_dispatches_on_method_witness :
  dict_get [ ("jsonrpc", JStr "2.0"); ("id", JInt 7);
             ("method", JStr "tasks/cancel");
             ("params", JObj [("id", JStr "t1")]) ] "method"
    = Some (JStr (method_literal tasks_cancel))
  /\ @A2ARequest.validate_python plain_pydantic
       (JObj [ ("jsonrpc", JStr "2.0"); ("id", JInt 7);
               ("method", JStr "tasks/cancel");
               ("params", JObj [("id", JStr "t1")]) ]) w0
     = match @JSONRPCRequest.init plain_pydantic tasks_cancel
               [ ("jsonrpc", JStr "2.0"); ("id", JInt 7);
                 ("method", JStr "tasks/cancel");
                 ("params", JObj [("id", JStr "t1")]) ] w0 with
       | (Ok r, w') => (Ok (A2ARequest.Tagged tasks_cancel r), w')
       | (Raise e, w') => (Raise e, w')
       end.
Proof.
  split; [reflexivity|].
  exact (@A2ARequest_dispatches_on_method plain_pydantic tasks_cancel
           [ ("jsonrpc", JStr "2.0"); ("id", JInt 7);
             ("method", JStr "tasks/cancel");
             ("params", JObj [("id", JStr "t1")]) ] w0 eq_refl).
Defined.

Example A2ARequest_cancel_decoded :
  fst (@A2ARequest.validate_python plain_pydantic
         (JObj [ ("jsonrpc", JStr "2.0"); ("id", JInt 7);
                 ("method", JStr "tasks/cancel");
                 ("params", JObj [("id", JStr "t1")]) ]) w0)
  = Ok (A2ARequest.Tagged tasks_cancel
          (@JSONRPCRequest.mk tasks_cancel "2.0" (IdInt 7) (TaskIdParams.mk "t1" None))).
Proof. reflexivity. Qed.

(** ** [are_modalities_compatible], further *)

(** X18.  Compatibility does not depend on which list is called the server's
    and which the client's. *)
Theorem are_modalities_compatible_symmetric
    (modes1 modes2 : option (list string)) :
  are_modalities_compatible modes1 modes2
  = are_modalities_compatible modes2 modes1.
Proof.
  unfold are_modalities_compatible.
  destruct modes1 as [[|a l1]|], modes2 as [[|b l2]|]; try reflexivity.
  cbn [none_or_empty length Nat.eqb default].
  apply Bool.eq_iff_eq_true. rewrite !existsb_exists.
  split; intros [x [Hin Hx]]; apply str_in_In in Hx;
    exists x; (split; [exact Hx|now apply str_in_In]).
Qed.

(** ** Push-notification authentication, further *)

(** X19.  A request without an [Authorization] header, or whose header does
    not start with ["Bearer "] (the empty header included), is answered
    [False]: no exception, and neither the key set nor the token decoder
    nor the body is consulted. *)
Theorem verify_rejects_missing_bearer `{JWTLibrary}
    (receiver : PushNotificationReceiverAuth.t) (data : option json)
    (now : Q) :
  PushNotificationReceiverAuth.verify_push_notification receiver
    {| authorization := None; body := data |} now = Ok false
  /\ (forall auth_header : string,
        String.prefix AUTH_HEADER_PREFIX auth_header = false ->
        PushNotificationReceiverAuth.verify_push_notification receiver
          {| authorization := Some auth_header; body := data |} now
        = Ok false).
Proof.
  split; [reflexivity|]. intros auth_header Hp.
  unfold PushNotificationReceiverAuth.verify_push_notification.
  cbn [authorization]. now rewrite Hp, andb_false_r.
Qed.

Example prefix_of_empty_header :
  String.prefix AUTH_HEADER_PREFIX "" = false
  /\ String.prefix AUTH_HEADER_PREFIX "Basic dXNlcg==" = false
  /\ String.prefix AUTH_HEADER_PREFIX "bearer abc" = false.
Proof. repeat split. Qed.

(** X20.  A receiver that has not loaded a key set never accepts: whatever
    the request and the time, the answer is [False] (no usable header) or
    the [AttributeError] of the call on the empty list. *)
Theorem verify_without_jwks_never_accepts `{JWTLibrary} (request : Request)
    (now : Q) :
  PushNotificationReceiverAuth.verify_push_notification
    PushNotificationReceiverAuth.init request now = Ok false
  \/ PushNotificationReceiverAuth.verify_push_notification
       PushNotificationReceiverAuth.init request now
     = Raise (AttributeError "get_signing_key_from_jwt").
Proof.
  unfold PushNotificationReceiverAuth.verify_push_notification.
  destruct (authorization request) as [auth_header|]; [|now left].
  destruct (negb _); [now left|now right].
Qed.

(** X21.  A token that cannot be resolved to a key, or that the decoder
    refuses (bad signature, other algorithm, missing claim), is not answered
    [False]: the exception of the library leaves [verify_push_notification],
    and the body is not read. *)
Theorem verify_propagates_library_errors `{JWTLibrary}
    (receiver : PushNotificationReceiverAuth.t) (client : PyJWKClient)
    (token : string) (data : option json) (now : Q) (e : exn) :
  PushNotificationReceiverAuth.jwks_client receiver = Some client ->
  (get_signing_key_from_jwt client token = Raise e ->
   PushNotificationReceiverAuth.verify_push_notification receiver
     {| authorization := Some (AUTH_HEADER_PREFIX ++ token); body := data |} now
   = Raise e)
  /\ (forall key,
        get_signing_key_from_jwt client token = Ok key ->
        jwt_decode token key ["RS256"] ["iat"; "request_body_sha256"] now
          = Raise e ->
        PushNotificationReceiverAuth.verify_push_notification receiver
          {| authorization := Some (AUTH_HEADER_PREFIX ++ token); body := data |}
          now
        = Raise e).
Proof.
  intros Hclient.
  unfold PushNotificationReceiverAuth.verify_push_notification.
  cbn [authorization body].
  rewrite after_prefix_bearer, Hclient, prefix_bearer.
  change (String.eqb (AUTH_HEADER_PREFIX ++ token) "") with false.
  cbn [negb andb]. split.
  - intros ->. reflexivity.
  - intros key Hkey Hdecode. rewrite Hkey. cbn [res_bind].
    rewrite Hdecode. reflexivity.
Qed.

Lemma verify_propagates_library_errors_witness :
  @PushNotificationReceiverAuth.jwks_client clear_jwt receiver_k1 = Some ["k1"]
  /\ (@get_signing_key_from_jwt clear_jwt ["k1"] "k2.1000.x"
        = Raise (JWTError "PyJWKClientError") ->
      @PushNotificationReceiverAuth.verify_push_notification clear_jwt
        receiver_k1
        {| authorization := Some (AUTH_HEADER_PREFIX ++ "k2.1000.x");
           body := None |} 1000
      = Raise (JWTError "PyJWKClientError"))
  /\ (forall key,
        @get_signing_key_from_jwt clear_jwt ["k1"] "k2.1000.x" = Ok key ->
        @jwt_decode clear_jwt "k2.1000.x" key ["RS256"]
          ["iat"; "request_body_sha256"] 1000
          = Raise (JWTError "PyJWKClientError") ->
        @PushNotificationReceiverAuth.verify_push_notification clear_jwt
          receiver_k1
          {| authorization := Some (AUTH_HEADER_PREFIX ++ "k2.1000.x");
             body := None |} 1000
        = Raise (JWTError "PyJWKClientError")).
Proof.
  split; [reflexivity|].
  exact (@verify_propagates_library_errors clear_jwt receiver_k1 ["k1"]
           "k2.1000.x" None 1000 (JWTError "PyJWKClientError") eq_refl).
Defined.

Example verify_unknown_key_raises :
  @PushNotificationReceiverAuth.verify_push_notification clear_jwt receiver_k1
    {| authorization := Some "Bearer k2.1000.x"; body := None |} 1000
  = Raise (JWTError "PyJWKClientError").
Proof. reflexivity. Qed.

Lemma int_of_bounds (x : Q) :
  (0 <= x)%Q ->
  (inject_Z (int_of x) <= x)%Q /\ (x < inject_Z (int_of x) + 1)%Q.
Proof.
  intros Hx.
  assert (Hfloor : int_of x = Qfloor x).
  { destruct x as [n d]. unfold int_of, Qfloor. simpl.
    apply Z.quot_div_nonneg; [|reflexivity].
    unfold Qle in Hx. simpl in Hx. lia. }
  rewrite Hfloor. split; [apply Qfloor_le|].
  pose proof (Qlt_floor x) as Hlt.
  rewrite inject_Z_plus in Hlt. exact Hlt.
Qed.

(** What the receiver answers to the request the sender made, once the
    token has been resolved and decoded: the age of the token decides. *)
Lemma verify_own_request `{JWTLibrary}
    (sender : PushNotificationSenderAuth.t)
    (receiver : PushNotificationReceiverAuth.t)
    (key : PyJWK) (client : PyJWKClient) (public : signing_key)
    (url : string) (data : dict) (t_sign t_verify : Q) :
  PushNotificationSenderAuth.private_key_jwk sender = Some key ->
  PushNotificationReceiverAuth.jwks_client receiver = Some client ->
  get_signing_key_from_jwt client (signed_token key data t_sign) = Ok public ->
  jwt_decode (signed_token key data t_sign) public ["RS256"]
    ["iat"; "request_body_sha256"] t_verify
    = Ok (signed_claims data t_sign) ->
  res_bind
    (PushNotificationSenderAuth.send_push_notification sender url data t_sign)
    (fun request =>
       PushNotificationReceiverAuth.verify_push_notification receiver request
         t_verify)
  = if PushNotificationReceiverAuth.too_old t_verify (int_of t_sign) then
      Raise (ValueError "Token expired")
    else Ok true.
Proof.
  intros Hkey Hclient Hresolve Hdecode.
  unfold PushNotificationSenderAuth.send_push_notification,
    PushNotificationSenderAuth._generate_jwt.
  rewrite Hkey. cbn [res_bind].
  fold (signed_claims data t_sign). fold (signed_token key data t_sign).
  rewrite (verify_signed receiver client public _ _ _ t_verify
             Hclient Hresolve Hdecode).
  unfold signed_claims. cbn [dict_get String.eqb Ascii.eqb Bool.eqb].
  destruct (PushNotificationReceiverAuth.differs _ _) eqn:Hd; [|reflexivity].
  apply differs_iff in Hd. congruence.
Qed.

(** X22.  Measured from the time of signing, the window is not exactly 300
    seconds, because [iat] is that time cut to whole seconds: a request
    checked up to 299 seconds after it was signed is accepted, one checked
    more than 300 seconds after is refused as expired. *)
Theorem push_notification_window `{JWTLibrary}
    (sender : PushNotificationSenderAuth.t)
    (receiver : PushNotificationReceiverAuth.t)
    (key : PyJWK) (client : PyJWKClient) (public : signing_key)
    (url : string) (data : dict) (t_sign t_verify : Q) :
  PushNotificationSenderAuth.private_key_jwk sender = Some key ->
  PushNotificationReceiverAuth.jwks_client receiver = Some client ->
  get_signing_key_from_jwt client (signed_token key data t_sign) = Ok public ->
  jwt_decode (signed_token key data t_sign) public ["RS256"]
    ["iat"; "request_body_sha256"] t_verify
    = Ok (signed_claims data t_sign) ->
  (0 <= t_sign)%Q ->
  ((t_verify - t_sign <= 299)%Q ->
   res_bind
     (PushNotificationSenderAuth.send_push_notification sender url data t_sign)
     (fun request =>
        PushNotificationReceiverAuth.verify_push_notification receiver request
          t_verify)
   = Ok true)
  /\ ((300 < t_verify - t_sign)%Q ->
      res_bind
        (PushNotificationSenderAuth.send_push_notification sender url data
           t_sign)
        (fun request =>
           PushNotificationReceiverAuth.verify_push_notification receiver
             request t_verify)
      = Raise (ValueError "Token expired")).
Proof.
  intros Hkey Hclient Hresolve Hdecode Hpos.
  rewrite (verify_own_request sender receiver key client public url data
             t_sign t_verify Hkey Hclient Hresolve Hdecode).
  destruct (int_of_bounds t_sign Hpos) as [Hlo Hhi].
  split; intros Hage.
  - rewrite too_old_false; [reflexivity|]. lra.
  - rewrite too_old_true; [reflexivity|]. lra.
Qed.

Lemma push_notification_window_witness :
  @PushNotificationSenderAuth.private_key_jwk clear_jwt sender_k1 = Some "k1"
  /\ @PushNotificationReceiverAuth.jwks_client clear_jwt receiver_k1
     = Some ["k1"]
  /\ @get_signing_key_from_jwt clear_jwt ["k1"]
       (@signed_token clear_jwt "k1" body_done 1000.75) = Ok "k1"
  /\ @jwt_decode clear_jwt (@signed_token clear_jwt "k1" body_done 1000.75) "k1"
       ["RS256"] ["iat"; "request_body_sha256"] 1299.5
     = Ok (@signed_claims clear_jwt body_done 1000.75)
  /\ (0 <= 1000.75)%Q
  /\ ((1299.5 - 1000.75 <= 299)%Q ->
      res_bind
        (@PushNotificationSenderAuth.send_push_notification clear_jwt sender_k1
           "http://client/notify" body_done 1000.75)
        (fun request =>
           @PushNotificationReceiverAuth.verify_push_notification clear_jwt
             receiver_k1 request 1299.5)
      = Ok true)
  /\ ((300 < 1299.5 - 1000.75)%Q ->
      res_bind
        (@PushNotificationSenderAuth.send_push_notification clear_jwt sender_k1
           "http://client/notify" body_done 1000.75)
        (fun request =>
           @PushNotificationReceiverAuth.verify_push_notification clear_jwt
             receiver_k1 request 1299.5)
      = Raise (ValueError "Token expired")).
Proof.
  split; [reflexivity|]. split; [reflexivity|]. split; [reflexivity|].
  split; [reflexivity|]. split; [discriminate|].
  exact (@push_notification_window clear_jwt sender_k1 receiver_k1 "k1" ["k1"]
           "k1" "http://client/notify" body_done 1000.75 1299.5
           eq_refl eq_refl eq_refl eq_refl
           (fun H : (0 ?= 1000.75)%Q = Gt => Logic.eq_ind Lt (fun c => match c with Gt => False | _ => True end) I Gt H)).
Defined.

(** Between 299 and 300 seconds the fraction of the signing second decides. *)
Example push_notification_window_edge :
  res_bind
    (@PushNotificationSenderAuth.send_push_notification clear_jwt sender_k1
       "http://client/notify" body_done 1000.75)
    (fun request =>
       @PushNotificationReceiverAuth.verify_push_notification clear_jwt
         receiver_k1 request 1300.5)
  = Raise (ValueError "Token expired")
  /\ res_bind
       (@PushNotificationSenderAuth.send_push_notification clear_jwt sender_k1
          "http://client/notify" body_done 1000)
       (fun request =>
          @PushNotificationReceiverAuth.verify_push_notification clear_jwt
            receiver_k1 request 1299.75)
     = Ok true.
Proof. split; reflexivity. Qed.

(** X23.  [verify_push_notification_url] never raises and draws one UUID, its
    validation token; it answers [True] exactly when the server answered the
    GET with a status in 200..299 and a body equal to the token. *)
Theorem verify_push_notification_url_spec (url : string)
    (server : string -> string -> get_outcome) (w : World) :
  exists verified : bool,
    verify_push_notification_url url server w = (Ok verified, after_draw w)
    /\ (verified = true
        <-> exists response,
              server url (uuid_str (entropy w (drawn w)))
                = GetReturns response
              /\ get_is_success response = true
              /\ text response = uuid_str (entropy w (drawn w))).
Proof.
  unfold verify_push_notification_url, bind, uuid4, ret.
  destruct (server url (uuid_str (entropy w (drawn w)))) as [msg|response]
    eqn:Hserver.
  - exists false. split; [reflexivity|]. split; [discriminate|].
    intros (r & Hr & _). discriminate.
  - destruct (get_is_success response) eqn:Hs.
    + eexists. split; [reflexivity|]. split.
      * intros Heq. apply String.eqb_eq in Heq. eauto.
      * intros (r & [= <-] & _ & Ht). now apply String.eqb_eq.
    + exists false. split; [reflexivity|]. split; [discriminate|].
      intros (r & [= <-] & Hr & _). congruence.
Qed.

Example verify_push_notification_url_echo :
  fst (verify_push_notification_url "http://client/notify"
         (fun _ token => GetReturns {| get_status := 200; text := token |}) w0)
  = Ok true
  /\ fst (verify_push_notification_url "http://client/notify"
            (fun _ _ => GetReturns {| get_status := 200; text := "ok" |}) w0)
     = Ok false
  /\ fst (verify_push_notification_url "http://client/notify"
            (fun _ _ => GetRaises "timeout") w0)
     = Ok false.
Proof. repeat split. Qed.

(** ** The text that is hashed *)



Lemma unescape_head_quote (r : string) :
  unescape_head (String (ascii_of_nat 34) r) = None.
Proof. reflexivity. Qed.





Example json_dumps_swapped_keys :
  String.eqb
    (json_dumps (JObj [("id", JStr "t1"); ("final", JBool true)]))
    (json_dumps (JObj [("final", JBool true); ("id", JStr "t1")]))
  = false.
Proof. vm_compute; reflexivity. Qed.

(** ** [hosts/multi_agent/host_agent.py] *)

Lemma convert_part_keeps_context `{Base64} (p : Part) (ctx : ToolContext.t) :
  convert_part p ctx
  = (match plain_value p with
     | Some v => Ok v
     | None => fst (convert_part p ctx)
     end, ctx)
  /\ (plain_value p = None -> exists e, fst (convert_part p ctx) = Raise e).
Proof.
  destruct p as [text m|file m|data m]; simpl.
  - split; [reflexivity|discriminate].
  - destruct (FileContent.bytes file) as [encoded|]; simpl.
    + destruct (b64decode encoded); simpl; split; eauto.
    + split; eauto.
  - split; [reflexivity|discriminate].
Qed.

(** X25.  [convert_parts] gives one value per part, in order, as long as no
    part is a file; as soon as one is, it raises.  In both cases the tool
    context is the one it was given: no artifact is ever saved and the flags
    [skip_summarization] and [escalate] are never set by it. *)
Theorem convert_parts_spec `{Base64} (parts : list Part)
    (ctx : ToolContext.t) :
  match mapM plain_value parts with
  | Some values => convert_parts parts ctx = (Ok values, ctx)
  | None => exists e, convert_parts parts ctx = (Raise e, ctx)
  end.
Proof.
  induction parts as [|p parts IH]; [reflexivity|].
  cbn [convert_parts mapM].
  destruct (convert_part_keeps_context p ctx) as [Hp Hfile].
  rewrite Hp. destruct (plain_value p) as [v|]; simpl.
  - destruct (mapM plain_value parts) as [values|]; simpl.
    + now rewrite IH.
    + destruct IH as [e ->]. eauto.
  - destruct (Hfile eq_refl) as [e ->]. eauto.
Qed.


(** X27.  The metadata of the outgoing message: the entries inherited from
    [input_message_metadata], with [conversation_id] set to the session id,
    and [message_id] the inherited one when it is truthy (no UUID is drawn
    then), a fresh UUID otherwise: an inherited id that is empty, zero or
    [None] is replaced. *)
Theorem message_metadata_spec (state given : dict) (session_id : json)
    (w : World) :
  distinct_keys given ->
  dict_get state "input_message_metadata" = Some (JObj given) ->
  exists (meta : dict) (w' : World),
    HostAgent.message_metadata state session_id w = (Ok meta, w')
    /\ dict_get meta "conversation_id" = Some session_id
    /\ (forall k, k <> "conversation_id" -> k <> "message_id" ->
                  dict_get meta k = dict_get given k)
    /\ (if state_truthy given "message_id" then
          dict_get meta "message_id" = dict_get given "message_id" /\ w' = w
        else
          dict_get meta "message_id"
            = Some (JStr (uuid_str (entropy w (drawn w))))
          /\ w' = after_draw w).
Proof.
  intros Hnd Hgiven. unfold HostAgent.message_metadata. rewrite Hgiven.
  unfold bind at 1. unfold ret at 1. cbn [fst snd].
  change (dict_update [] given) with (dict_copy given).
  rewrite (dict_copy_id given Hnd).
  assert (Hbody : forall (mid : json) (k : string),
             dict_get (dict_update given
                         [("conversation_id", session_id); ("message_id", mid)])
               k
             = if String.eqb k "message_id" then Some mid
               else if String.eqb k "conversation_id" then Some session_id
               else dict_get given k).
  { intros mid k. unfold dict_update. cbn [fold_left fst snd].
    destruct (String.eqb_spec k "message_id") as [->|Hm].
    - apply dict_get_set_eq.
    - rewrite dict_get_set_ne by congruence.
      destruct (String.eqb_spec k "conversation_id") as [->|Hc].
      + apply dict_get_set_eq.
      + now rewrite dict_get_set_ne by congruence. }
  unfold state_truthy.
  destruct (dict_get given "message_id") as [mid|] eqn:Hmid.
  - destruct (truthy_json mid) eqn:Htruthy; cbn [negb];
      unfold bind, uuid4, ret; eexists; eexists;
      (split; [reflexivity|]); rewrite !Hbody; cbn [String.eqb Ascii.eqb Bool.eqb];
      (split; [reflexivity|]); (split; [|split; reflexivity]);
      intros k Hc Hm; rewrite Hbody;
      (destruct (String.eqb_spec k "message_id"); [contradiction|]);
      (destruct (String.eqb_spec k "conversation_id"); [contradiction|]);
      reflexivity.
  - cbn [truthy_json String.eqb negb].
    unfold bind, uuid4, ret; eexists; eexists;
      (split; [reflexivity|]); rewrite !Hbody; cbn [String.eqb Ascii.eqb Bool.eqb];
      (split; [reflexivity|]); (split; [|split; reflexivity]);
      intros k Hc Hm; rewrite Hbody;
      (destruct (String.eqb_spec k "message_id"); [contradiction|]);
      (destruct (String.eqb_spec k "conversation_id"); [contradiction|]);
      reflexivity.
Qed.

Lemma remote_send_task_raises `{Pydantic} (self : RemoteAgentConnections.t)
    (request : TaskSendParams.t) (task_callback : bool)
    (net : RemoteAgentConnections.network) (w : World) :
  exists (e : exn) (w' : World),
    RemoteAgentConnections.send_task self request task_callback net w
    = (Raise e, w').
Proof.
  unfold RemoteAgentConnections.send_task.
  destruct (AgentCard.capabilities (RemoteAgentConnections.card self))
    as [capabilities|]; [|unfold raise; eauto].
  destruct (AgentCapabilities.streaming capabilities).
  - unfold A2AClient.send_task_streaming.
    destruct task_callback; unfold bind at 1; simpl;
      unfold bind; rewrite request_init_of_dump; eauto.
  - unfold A2AClient.send_task, A2AClient.unary, bind.
    rewrite request_init_of_dump. eauto.
Qed.

(** X28.  [HostAgent.send_task] never returns a response.  Whatever the
    agents known, the agent named, the message, the state and the network,
    it raises, and of the tool context at most [state["agent"]] has been
    assigned: [session_active] is not updated, no flag is set and no artifact
    is saved.  (The request it builds is dumped and expanded into the
    JSON-RPC request by the connection, which has no [params] then.) *)
Theorem host_send_task_never_returns `{Pydantic} `{Base64} (self : HostAgent.t)
    (agent_name message : string) (tool_context : ToolContext.t)
    (net : RemoteAgentConnections.network) (w : World) :
  exists (e : exn) (ctx : ToolContext.t) (w' : World),
    HostAgent.send_task self agent_name message tool_context net w
    = (Raise e, ctx, w')
    /\ (ctx = tool_context
        \/ ctx = ToolContext.set_state tool_context "agent" (JStr agent_name)).
Proof.
  unfold HostAgent.send_task.
  destruct (HostAgent.remote_agent_connections self !! agent_name)
    as [client|]; [|eauto 6].
  destruct (HostAgent.cards self !! agent_name) as [card|]; [|eauto 6].
  destruct (HostAgent.build_request _ message w) as [[request|e] w1];
    [|eauto 6].
  destruct (remote_send_task_raises client request
              (HostAgent.task_callback self) net w1) as (e & w2 & ->).
  eauto 6.
Qed.

(** X29.  The first request of a conversation.  From a state with no
    session, [before_model_callback] followed by the construction of the
    request draws two UUIDs: the first is the session id, and also the task
    id since the state has no [task_id]; the second is the message id.  The
    conversation id of the request and of its message is the session id. *)
Theorem first_request_of_a_conversation (state : dict) (message : string)
    (w : World) :
  dict_get state "session_id" = None ->
  state_truthy state "session_active" = false ->
  dict_get state "task_id" = None ->
  dict_get state "input_message_metadata" = None ->
  let session := uuid_str (entropy w (drawn w)) in
  let message_id := uuid_str (entropy w (S (drawn w))) in
  (let* state' := HostAgent.before_model_callback state in
   HostAgent.build_request state' message) w
  = (Ok (TaskSendParams.mk session session
           (Message.mk user [TextPart message None]
              (Some [("conversation_id", JStr session);
                     ("message_id", JStr message_id)]))
           (Some ["text"; "text/plain"; "image/png"]) None None
           (Some [("conversation_id", JStr session)])),
     after_draw (after_draw w)).
Proof.
  intros Hsid Hactive Htask Hinput session message_id.
  unfold bind at 1.
  assert (Hfirst : HostAgent.before_model_callback state w
                   = (Ok (dict_set (dict_set state "session_id" (JStr session))
                            "session_active" (JBool true)), after_draw w)).
  { unfold HostAgent.before_model_callback, dict_mem.
    unfold state_truthy in Hactive. rewrite Hsid.
    destruct (dict_get state "session_active") as [v|];
      [rewrite Hactive|]; reflexivity. }
  rewrite Hfirst.
  set (state' := dict_set (dict_set state "session_id" (JStr session))
                   "session_active" (JBool true)).
  assert (Hs : dict_get state' "session_id" = Some (JStr session)).
  { unfold state'. rewrite dict_get_set_ne by discriminate.
    apply dict_get_set_eq. }
  assert (Ht : dict_get state' "task_id" = None).
  { unfold state'. now rewrite !dict_get_set_ne by discriminate. }
  assert (Hi : dict_get state' "input_message_metadata" = None).
  { unfold state'. now rewrite !dict_get_set_ne by discriminate. }
  unfold HostAgent.build_request, HostAgent.message_metadata, dict_mem,
    state_item.
  rewrite Ht, Hs, Hi. reflexivity.
Qed.

Lemma first_request_of_a_conversation_witness :
  (let* state' := HostAgent.before_model_callback [("user", JStr "ann")] in
   HostAgent.build_request state' "hello") w0
  = (Ok (TaskSendParams.mk (uuid_str (counting 0)) (uuid_str (counting 0))
           (Message.mk user [TextPart "hello" None]
              (Some [("conversation_id", JStr (uuid_str (counting 0)));
                     ("message_id", JStr (uuid_str (counting 1)))]))
           (Some ["text"; "text/plain"; "image/png"]) None None
           (Some [("conversation_id", JStr (uuid_str (counting 0)))])),
     after_draw (after_draw w0)).
Proof.
  exact (first_request_of_a_conversation [("user", JStr "ann")] "hello" w0
           eq_refl eq_refl eq_refl eq_refl).
Defined.

Lemma message_metadata_spec_witness :
  exists (meta : dict) (w' : World),
    HostAgent.message_metadata
      [("input_message_metadata",
        JObj [("message_id", JStr ""); ("trace", JInt 7)])]
      (JStr "s1") w0
    = (Ok meta, w')
    /\ dict_get meta "conversation_id" = Some (JStr "s1")
    /\ (forall k, k <> "conversation_id" -> k <> "message_id" ->
                  dict_get meta k
                  = dict_get [("message_id", JStr ""); ("trace", JInt 7)] k)
    /\ (if state_truthy [("message_id", JStr ""); ("trace", JInt 7)]
             "message_id" then
          dict_get meta "message_id"
            = dict_get [("message_id", JStr ""); ("trace", JInt 7)]
                "message_id"
          /\ w' = w0
        else
          dict_get meta "message_id"
            = Some (JStr (uuid_str (entropy w0 (drawn w0))))
          /\ w' = after_draw w0).
Proof.
  refine (message_metadata_spec
            [("input_message_metadata",
              JObj [("message_id", JStr ""); ("trace", JInt 7)])]
            [("message_id", JStr ""); ("trace", JInt 7)] (JStr "s1") w0
            _ eq_refl).
  unfold distinct_keys. simpl.
  apply NoDup_cons. split.
  - intros Hin. apply list_elem_of_In in Hin. simpl in Hin.
    intuition discriminate.
  - apply NoDup_cons. split.
    + intros Hin. apply list_elem_of_In in Hin. simpl in Hin. exact Hin.
    + apply NoDup_nil. exact I.
Defined.
